(** * StatusPageForm: a shallow embedding of
      [apps/web/src/components/forms/status-page-form.tsx]

    The component is a React form.  Its handlers are embedded as programs of
    a small monad that threads the component state, records every call that
    leaves the component (remote procedure calls, router, toasts, console)
    in a log, and propagates a rejected promise the way [await] does.  The
    collaborators that live outside the file ([slugify], the validation
    schema, the tRPC backend, the upload endpoint, ...) are fields of an
    environment record, so every theorem holds for all of them. *)

From Stdlib Require Import ZArith String Ascii List Bool Lia.
From stdpp Require Import base option list strings pretty gmap.

Local Open Scope Z_scope.
Local Open Scope string_scope.
Local Open Scope list_scope.

(** ** Data model *)

(** [z.infer<typeof insertPageSchemaWithMonitors>].  [monitors] is optional
    in the source ([defaultValues?.monitors ?? []], [field.value || []]). *)
Module Schema.
Record t := mk {
  title : string;
  slug : string;
  description : string;
  workspaceId : Z;
  id : Z;
  monitors : option (list Z);
  customDomain : string;
  workspaceSlug : string;
  icon : string
}.

Definition with_title (v : string) (d : t) : t :=
  mk v (slug d) (description d) (workspaceId d) (id d) (monitors d)
     (customDomain d) (workspaceSlug d) (icon d).
Definition with_slug (v : string) (d : t) : t :=
  mk (title d) v (description d) (workspaceId d) (id d) (monitors d)
     (customDomain d) (workspaceSlug d) (icon d).
Definition with_monitors (v : option (list Z)) (d : t) : t :=
  mk (title d) (slug d) (description d) (workspaceId d) (id d) v
     (customDomain d) (workspaceSlug d) (icon d).
Definition with_workspaceSlug (v : string) (d : t) : t :=
  mk (title d) (slug d) (description d) (workspaceId d) (id d) (monitors d)
     (customDomain d) v (icon d).
Definition with_icon (v : string) (d : t) : t :=
  mk (title d) (slug d) (description d) (workspaceId d) (id d) (monitors d)
     (customDomain d) (workspaceSlug d) v.
End Schema.

(** An element of [allMonitors]; the form reads [id], [name] and [url]. *)
Module Monitor.
Record t := mk { id : Z; name : string; url : string }.
End Monitor.

(** [interface Props]. Optional members are [option]s. *)
Module Props.
Record t := mk {
  defaultValues : option Schema.t;
  workspaceSlug : string;
  allMonitors : option (list Monitor.t);
  checkAllMonitors : option bool;
  nextUrl : option string
}.
End Props.

(** What [api.page.createPage.mutate] resolves to; the form reads [page?.id]
    only, and the optional chaining says that no page may come back. *)
Module Page.
Record t := mk { id : Z }.
End Page.

(** An element of a [FileList]. *)
Module File.
Record t := mk { name : string; content : list Byte.byte }.
End File.

(** [PutBlobResult]; the form reads [url] only. *)
Module PutBlobResult.
Record t := mk { url : string }.
End PutBlobResult.

(** A settled promise. *)
Inductive Outcome (A : Type) : Type :=
| Resolved (a : A)
| Rejected.
Arguments Resolved {A} a.
Arguments Rejected {A}.

(** What the resolver of react-hook-form hands back: the field errors and
    the parsed values.  The submission goes on when [errors] is empty. *)
Module Resolution.
Record t := mk { errors : gmap string string; values : Schema.t }.
End Resolution.

(** ** JavaScript truthiness, as the source uses it *)

Definition truthy (s : string) : bool := negb (String.eqb s "").

(** [o || d] on an optional string. *)
Definition or_string (o : option string) (d : string) : string :=
  match o with
  | Some s => if truthy s then s else d
  | None => d
  end.

(** [o || d] on an optional number. *)
Definition or_number (o : option Z) (d : Z) : Z :=
  match o with
  | Some n => if Z.eqb n 0 then d else n
  | None => d
  end.

(** [o ?? d]. *)
Definition nullish {A : Type} (o : option A) (d : A) : A :=
  match o with
  | Some a => a
  | None => d
  end.

(** ** [useForm({ defaultValues })], lines 60-76 *)

Definition initialMonitors (p : Props.t) : list Z :=
  match Props.checkAllMonitors p, Props.allMonitors p with
  | Some true, Some all => List.map Monitor.id all
  | _, _ => nullish (Props.defaultValues p ≫= Schema.monitors) []
  end.

Definition initialValues (p : Props.t) : Schema.t :=
  let dv := Props.defaultValues p in
  Schema.mk
    (or_string (Schema.title <$> dv) "")
    (or_string (Schema.slug <$> dv) "")
    (or_string (Schema.description <$> dv) "")
    (or_number (Schema.workspaceId <$> dv) 0)
    (or_number (Schema.id <$> dv) 0)
    (Some (initialMonitors p))
    (or_string (Schema.customDomain <$> dv) "")
    ""
    (or_string (Schema.icon <$> dv) "").

(** ** The component's state and its observable effects *)

(** Every call that leaves the component, in program order. *)
Inductive Effect : Type :=
| PreventDefault
| GetSlugUniqueness (slug : string)
| UpdatePage (input : Schema.t)
| CreatePage (input : Schema.t)
| RouterReplace (href : string)
| RouterPush (href : string)
| RouterRefresh
| Toast (key : string)
| ConsoleLogFile (f : File.t)
| ConsoleLog (s : string)
| Fetch (url : string) (body : File.t).

(** [values] and [errors] are the state of the [form] object, [debouncedSlug]
    is what [useDebounce(watchSlug, 1000)] currently returns, [isPending] is
    the flag of [useTransition].  [watchSlug] and [watchTitle] are
    [Schema.slug (values st)] and [Schema.title (values st)]. *)
Record State := mkState {
  values : Schema.t;
  errors : gmap string string;
  debouncedSlug : string;
  isPending : bool;
  log : list Effect
}.

Definition watchSlug (st : State) : string := Schema.slug (values st).
Definition watchTitle (st : State) : string := Schema.title (values st).

(** The collaborators imported by the file.  [getSlugUniqueness],
    [updatePage], [createPage] are the tRPC procedures, [upload] is
    [fetch(url, { method: "POST", body })] followed by [response.json()],
    [updateSearchParams] is what the hook [useUpdateSearchParams] returns,
    applied to [{ id }], [resolver] is [zodResolver(insertPageSchemaWithMonitors)],
    [toLowerCase] is [String.prototype.toLowerCase]. *)
Record Env := mkEnv {
  slugify : string -> string;
  toLowerCase : string -> string;
  updateSearchParams : option Z -> string;
  resolver : Schema.t -> Resolution.t;
  getSlugUniqueness : string -> Outcome bool;
  updatePage : Schema.t -> Outcome unit;
  createPage : Schema.t -> Outcome (option Page.t);
  upload : string -> File.t -> Outcome PutBlobResult.t
}.

(** ** The handler monad: state, log, and rejection *)

Definition M (A : Type) : Type := State -> Outcome A * State.

Definition ret {A : Type} (a : A) : M A := fun st => (Resolved a, st).

Definition bind {A B : Type} (m : M A) (k : A -> M B) : M B :=
  fun st =>
    match m st with
    | (Resolved a, st') => k a st'
    | (Rejected, st') => (Rejected, st')
    end.

Declare Scope handler_scope.
Delimit Scope handler_scope with handler.
Notation "x <- m ;; k" := (bind m (fun x => k))
  (at level 100, m at next level, right associativity) : handler_scope.
Notation "m ;; k" := (bind m (fun _ => k))
  (at level 100, right associativity) : handler_scope.
Local Open Scope handler_scope.

(** [try { m } catch { h }]. *)
Definition try_catch (m h : M unit) : M unit :=
  fun st =>
    match m st with
    | (Resolved a, st') => (Resolved a, st')
    | (Rejected, st') => h st'
    end.

(** [void m]: the promise is dropped, a rejection stays unhandled. *)
Definition void {A : Type} (m : M A) : M unit :=
  fun st => (Resolved tt, snd (m st)).

(** [await] of a promise that has settled as [o]. *)
Definition await {A : Type} (o : Outcome A) : M A := fun st => (o, st).

Definition emit (e : Effect) : M unit :=
  fun st =>
    (Resolved tt,
     mkState (values st) (errors st) (debouncedSlug st) (isPending st)
             (log st ++ [e])).

Definition get : M State := fun st => (Resolved st, st).

Definition setValues (f : Schema.t -> Schema.t) : M unit :=
  fun st =>
    (Resolved tt,
     mkState (f (values st)) (errors st) (debouncedSlug st) (isPending st)
             (log st)).

Definition setErrors (f : gmap string string -> gmap string string) : M unit :=
  fun st =>
    (Resolved tt,
     mkState (values st) (f (errors st)) (debouncedSlug st) (isPending st)
             (log st)).

Definition setDebouncedSlug (s : string) : M unit :=
  fun st =>
    (Resolved tt,
     mkState (values st) (errors st) s (isPending st) (log st)).

Definition setPending (b : bool) : M unit :=
  fun st =>
    (Resolved tt,
     mkState (values st) (errors st) (debouncedSlug st) b (log st)).

Definition exec {A : Type} (m : M A) (st : State) : State := snd (m st).
Definition outcome {A : Type} (m : M A) (st : State) : Outcome A := fst (m st).

(** What a handler appended to the log: the log of the final state with the
    prefix that was already there dropped. *)
Definition emitted {A : Type} (m : M A) (st : State) : list Effect :=
  drop (length (log st)) (log (exec m st)).

(** ** The component *)

Section StatusPageForm.

Variable env : Env.
Variable props : Props.t.

(** *** Calls that leave the component *)

Definition query_getSlugUniqueness (s : string) : M bool :=
  emit (GetSlugUniqueness s) ;; await (getSlugUniqueness env s).

Definition mutate_updatePage (input : Schema.t) : M unit :=
  emit (UpdatePage input) ;; await (updatePage env input).

Definition mutate_createPage (input : Schema.t) : M (option Page.t) :=
  emit (CreatePage input) ;; await (createPage env input).

Definition toast (key : string) : M unit := emit (Toast key).

(** *** The [form] object *)

Definition form_setValue_slug (v : string) : M unit :=
  setValues (Schema.with_slug v).

Definition form_setValue_icon (v : string) : M unit :=
  setValues (Schema.with_icon v).

Definition form_setError_slug (message : string) : M unit :=
  setErrors (insert "slug" message).

Definition form_clearErrors_slug : M unit :=
  setErrors (delete "slug").

(** [form.handleSubmit(onValid)(e)]: the resolver runs on the current
    values, its errors become the form's errors, and [onValid] is called
    with the parsed values when there is none. *)
Definition form_handleSubmit (onValid : Schema.t -> M unit) : M unit :=
  st <- get ;;
  let r := resolver env (values st) in
  setErrors (fun _ => Resolution.errors r) ;;
  if decide (Resolution.errors r = ∅) then onValid (Resolution.values r)
  else ret tt.

(** *** [checkUniqueSlug], lines 86-94 *)

(** [debouncedSlug.toLowerCase() === defaultValues?.slug.toLowerCase()];
    without [defaultValues] the right-hand side is [undefined]. *)
Definition sameAsOriginal (s : string) : bool :=
  match Props.defaultValues props with
  | Some d => String.eqb (toLowerCase env s) (toLowerCase env (Schema.slug d))
  | None => false
  end.

Definition checkUniqueSlug : M bool :=
  st <- get ;;
  isUnique <- query_getSlugUniqueness (debouncedSlug st) ;;
  ret (isUnique || sameAsOriginal (debouncedSlug st)).

(** *** The effect on [checkUniqueSlug], lines 96-110 *)

Definition slugTakenMessage : string :=
  "Already taken. Please select another slug.".

Definition watchSlugChanges : M unit :=
  isUnique <- checkUniqueSlug ;;
  if negb isUnique then form_setError_slug slugTakenMessage
  else form_clearErrors_slug.

Definition slugEffect : M unit := void watchSlugChanges.

(** *** The effect on [watchTitle], lines 112-116 *)

(** [!defaultValues?.title]. *)
Definition noDefaultTitle : bool :=
  match Props.defaultValues props with
  | Some d => negb (truthy (Schema.title d))
  | None => true
  end.

Definition titleEffect : M unit :=
  st <- get ;;
  if noDefaultTitle then form_setValue_slug (slugify env (watchTitle st))
  else ret tt.

(** *** [onSubmit], lines 118-143 *)

(** [startTransition(async () => body)]. *)
Definition startTransition (body : M unit) : M unit :=
  setPending true ;; body ;; setPending false.

(** [page?.id || null]. *)
Definition createdId (page : option Page.t) : option Z :=
  match page with
  | Some p => if Z.eqb (Page.id p) 0 then None else Some (Page.id p)
  | None => None
  end.

Definition onSubmit (data : Schema.t) : M unit :=
  startTransition
    (try_catch
       ((match Props.defaultValues props with
         | Some _ => mutate_updatePage data
         | None =>
             page <- mutate_createPage
                       (Schema.with_workspaceSlug (Props.workspaceSlug props) data) ;;
             let id := createdId page in
             emit (RouterReplace ("?" +:+ updateSearchParams env id))
         end) ;;
        toast "saved" ;;
        (match Props.nextUrl props with
         | Some u => if truthy u then emit (RouterPush u) else ret tt
         | None => ret tt
         end) ;;
        emit RouterRefresh)
       (toast "error")).

(** *** [handleChange], lines 145-159 *)

Definition handleChange (file : option (list File.t)) : M unit :=
  match file with
  | None | Some [] => ret tt
  | Some (f0 :: _) =>
      emit (ConsoleLogFile f0) ;;
      let url := "/api/upload?filename=" +:+ File.name f0 in
      emit (Fetch url f0) ;;
      newblob <- await (upload env url f0) ;;
      emit (ConsoleLog (PutBlobResult.url newblob)) ;;
      form_setValue_icon (PutBlobResult.url newblob)
  end.

(** *** The [onSubmit] of the [<form>], lines 164-175 *)

Definition form_onSubmit : M unit :=
  emit PreventDefault ;;
  isUnique <- checkUniqueSlug ;;
  if negb isUnique then toast "unique-slug"
  else void (form_handleSubmit onSubmit).

(** *** The favicon control, lines 239-266 *)

Inductive IconControl : Type :=
| FilePicker
| Preview (src : string).

Definition renderIcon (st : State) : IconControl :=
  let v := Schema.icon (values st) in
  if truthy v then Preview v else FilePicker.

(** [onClick] of the "Remove" button. *)
Definition removeIcon : M unit := form_setValue_icon "".

(** *** The monitor checkboxes, lines 297-311 *)

Definition isChecked (item : Monitor.t) (st : State) : bool :=
  match Schema.monitors (values st) with
  | Some l => bool_decide (Monitor.id item ∈ l)
  | None => false
  end.

Definition onCheckedChange (item : Monitor.t) (checked : bool) : M unit :=
  setValues (fun d =>
    Schema.with_monitors
      (if checked
       then Some (nullish (Schema.monitors d) [] ++ [Monitor.id item])
       else filter (fun v => v ≠ Monitor.id item) <$> Schema.monitors d)
      d).

End StatusPageForm.

(** ** The component as a transition system *)

(** What can happen to a mounted form.  The "Remove" button of lines
    257-264 has no [type] and sits inside the [<form>]: its click runs the
    [onClick] and, as its default action, may submit the form as well.
    The [onClick] does not prevent that; [defaultAction] says whether the
    submission took place. *)
Inductive Event : Type :=
| TitleInput (t : string)
| SlugInput (s : string)
| DebounceSettled
| Submit
| FilesSelected (file : option (list File.t))
| RemoveClicked (defaultAction : bool)
| MonitorToggled (item : Monitor.t) (checked : bool).

Section Transitions.

Variable env : Env.
Variable props : Props.t.

(** The title input writes the field; the render that follows runs the
    effect of lines 112-116 when its dependency [watchTitle] has changed.
    The inputs write values only: the validation that react-hook-form runs
    again on a field changed after a submission is outside the model, and
    nothing below reads the errors after such an input. *)
Definition onTitleInput (t : string) : M unit :=
  st <- get ;;
  setValues (Schema.with_title t) ;;
  if String.eqb t (watchTitle st) then ret tt else titleEffect env props.

Definition onSlugInput (s : string) : M unit :=
  setValues (Schema.with_slug s).

(** Modelled from the spec: the hook [useDebounce] ([@/hooks/use-debounce])
    is not part of the sources at hand.  The spec says that the slug input
    is debounced by a fixed delay of 1000 ms and that only the most recent
    value is checked: when the delay has elapsed [debouncedSlug] becomes the
    current slug.  [checkUniqueSlug] is then a new callback, so the effect
    of lines 96-110 runs again. *)
Definition onDebounceSettled : M unit :=
  st <- get ;;
  if String.eqb (watchSlug st) (debouncedSlug st) then ret tt
  else (setDebouncedSlug (watchSlug st) ;; slugEffect env props).

Definition handle (ev : Event) : M unit :=
  match ev with
  | TitleInput t => onTitleInput t
  | SlugInput s => onSlugInput s
  | DebounceSettled => onDebounceSettled
  | Submit => form_onSubmit env props
  | FilesSelected file => void (handleChange env file)
  | RemoveClicked defaultAction =>
      removeIcon ;;
      if defaultAction then form_onSubmit env props else ret tt
  | MonitorToggled item checked => onCheckedChange item checked
  end.

Definition step (st : State) (ev : Event) : State := exec (handle ev) st.

Definition run (evs : list Event) (st : State) : State := foldl step st evs.

(** The state of the first render, before any effect has run. *)
Definition firstRender : State :=
  let v := initialValues props in
  mkState v ∅ (Schema.slug v) false [].

(** Mounting runs both effects once, in the order of their declaration. *)
Definition mount : State :=
  exec (slugEffect env props ;; titleEffect env props) firstRender.

End Transitions.

(** ** Reading the log *)

Definition createCalls (l : list Effect) : list Schema.t :=
  omap (fun e => match e with CreatePage i => Some i | _ => None end) l.

Definition updateCalls (l : list Effect) : list Schema.t :=
  omap (fun e => match e with UpdatePage i => Some i | _ => None end) l.

Definition replaces (l : list Effect) : list string :=
  omap (fun e => match e with RouterReplace h => Some h | _ => None end) l.

Definition pushes (l : list Effect) : list string :=
  omap (fun e => match e with RouterPush h => Some h | _ => None end) l.

Definition refreshes (l : list Effect) : nat :=
  length (omap (fun e => match e with RouterRefresh => Some tt | _ => None end) l).

Definition toasts (l : list Effect) : list string :=
  omap (fun e => match e with Toast k => Some k | _ => None end) l.

(** ** What a submission sends out *)

Section Traces.

Variable env : Env.
Variable props : Props.t.

(** The mutation that [onSubmit] calls for [data], and how it settles. *)
Definition mutationCall (data : Schema.t) : Effect :=
  match Props.defaultValues props with
  | Some _ => UpdatePage data
  | None => CreatePage (Schema.with_workspaceSlug (Props.workspaceSlug props) data)
  end.

Definition mutationRejected (data : Schema.t) : Prop :=
  match Props.defaultValues props with
  | Some _ => updatePage env data = Rejected
  | None =>
      createPage env (Schema.with_workspaceSlug (Props.workspaceSlug props) data)
      = Rejected
  end.

(** What follows a mutation that went through: lines 134-138. *)
Definition afterSuccess : list Effect :=
  Toast "saved" ::
  match Props.nextUrl props with
  | Some u => if truthy u then [RouterPush u] else []
  | None => []
  end ++ [RouterRefresh].

(** Everything [onSubmit] sends out for [data]. *)
Definition submitTrace (data : Schema.t) : list Effect :=
  match Props.defaultValues props with
  | Some _ =>
      UpdatePage data ::
      match updatePage env data with
      | Resolved _ => afterSuccess
      | Rejected => [Toast "error"]
      end
  | None =>
      let input := Schema.with_workspaceSlug (Props.workspaceSlug props) data in
      CreatePage input ::
      match createPage env input with
      | Resolved page =>
          RouterReplace ("?" +:+ updateSearchParams env (createdId page))
          :: afterSuccess
      | Rejected => [Toast "error"]
      end
  end.

End Traces.

(** ** The wording of the specification, where the code departs from it *)

(** The gate as the specification words it: the check applied to the slug
    that is in the field when the form is submitted says "not unique". *)
Definition currentSlugNotUnique (env : Env) (props : Props.t) (st : State) : Prop :=
  getSlugUniqueness env (watchSlug st) = Resolved false /\
  sameAsOriginal env props (watchSlug st) = false.

(** The submission is aborted: the toast "unique-slug", and no mutation. *)
Definition submissionAborted (env : Env) (props : Props.t) (st : State) : Prop :=
  let sent := emitted (form_onSubmit env props) st in
  toasts sent = ["unique-slug"] /\ createCalls sent = [] /\ updateCalls sent = [].

(** The claim on the query string as the specification words it: the create
    went through and the query string is replaced with the id that
    [createPage] returned. *)
Definition queryCarriesReturnedId
    (env : Env) (props : Props.t) (data : Schema.t) (st : State) : Prop :=
  exists p,
    createPage env (Schema.with_workspaceSlug (Props.workspaceSlug props) data)
    = Resolved (Some p) /\
    replaces (emitted (onSubmit env props data) st)
    = ["?" +:+ updateSearchParams env (Some (Page.id p))].

(** ** A concrete environment, to run the component on examples *)

Module Sample.

Definition lowerAscii (c : ascii) : ascii :=
  let n := nat_of_ascii c in
  if ((65 <=? n) && (n <=? 90))%nat then ascii_of_nat (n + 32) else c.

Fixpoint lower (s : string) : string :=
  match s with
  | EmptyString => EmptyString
  | String c r => String (lowerAscii c) (lower r)
  end.

Definition dash (c : ascii) : ascii :=
  if Ascii.eqb c " "%char then "-"%char else c.

Fixpoint dashes (s : string) : string :=
  match s with
  | EmptyString => EmptyString
  | String c r => String (dash c) (dashes r)
  end.

(** A backend in which the slug ["acme"] exists already and every creation
    yields the page 42; a validation that wants three characters in the
    slug. *)
Definition env : Env :=
  mkEnv
    (fun t => dashes (lower t))
    lower
    (fun id => match id with Some n => "id=" +:+ pretty n | None => "" end)
    (fun v =>
       Resolution.mk
         (if (String.length (Schema.slug v) <? 3)%nat
          then {[ "slug" := "String must contain at least 3 character(s)" ]}
          else ∅)
         v)
    (fun s => Resolved (negb (String.eqb (lower s) "acme")))
    (fun _ => Resolved tt)
    (fun _ => Resolved (Some (Page.mk 42)))
    (fun _ f => Resolved (PutBlobResult.mk ("https://blob.example/" +:+ File.name f))).

(** The same backend, with mutations that fail. *)
Definition failing : Env :=
  mkEnv (slugify env) (toLowerCase env) (updateSearchParams env) (resolver env)
        (getSlugUniqueness env) (fun _ => Rejected) (fun _ => Rejected)
        (upload env).

(** The same backend, with a [createPage] that resolves to [page]. *)
Definition answering (page : option Page.t) : Env :=
  mkEnv (slugify env) (toLowerCase env) (updateSearchParams env) (resolver env)
        (getSlugUniqueness env) (updatePage env) (fun _ => Resolved page)
        (upload env).

(** The same backend, with an upload endpoint that answers [{ url: u }]. *)
Definition uploading (u : string) : Env :=
  mkEnv (slugify env) (toLowerCase env) (updateSearchParams env) (resolver env)
        (getSlugUniqueness env) (updatePage env) (createPage env)
        (fun _ _ => Resolved (PutBlobResult.mk u)).

Definition acme : Schema.t :=
  Schema.mk "Acme Status" "acme" "All systems" 7 3 (Some [1; 2]) "" "" "".

Definition creating : Props.t := Props.mk None "my-team" None None None.

Definition editing : Props.t :=
  Props.mk (Some acme) "my-team" None None (Some "/app/my-team/status-pages").

(** Editing with the request to pre-select every monitor. *)
Definition selectingAll : Props.t :=
  Props.mk (Some acme) "my-team"
           (Some [Monitor.mk 5 "api" "https://a"; Monitor.mk 9 "web" "https://w"])
           (Some true) None.

Definition favicon : File.t := File.mk "favicon.png" [].

End Sample.

(** ** The whole form: every input the markup offers *)

(** [field.onChange] of the description input, lines 192-210. *)
Definition with_description (v : string) (d : Schema.t) : Schema.t :=
  Schema.mk (Schema.title d) (Schema.slug d) v (Schema.workspaceId d) (Schema.id d)
            (Schema.monitors d) (Schema.customDomain d) (Schema.workspaceSlug d)
            (Schema.icon d).

Definition onDescriptionInput (s : string) : M unit :=
  setValues (with_description s).

(** An event of the form, or a keystroke in the description input. *)
Inductive Interaction : Type :=
| Core (ev : Event)
| DescriptionInput (s : string).

Definition interact (env : Env) (props : Props.t) (st : State) (i : Interaction) :
    State :=
  match i with
  | Core ev => step env props st ev
  | DescriptionInput s => exec (onDescriptionInput s) st
  end.

Definition session (env : Env) (props : Props.t) (acts : list Interaction)
    (st : State) : State :=
  foldl (interact env props) st acts.

(** The interactions that submit the form: the submit event, and a click
    on "Remove" whose default action took place. *)
Definition isSubmit (i : Interaction) : bool :=
  match i with
  | Core Submit => true
  | Core (RemoveClicked defaultAction) => defaultAction
  | _ => false
  end.

Definition isSlugInput (i : Interaction) : bool :=
  match i with
  | Core (SlugInput _) => true
  | _ => false
  end.

(** The monitors a toggle of the session refers to. *)
Definition toggledIds (acts : list Interaction) : list Z :=
  omap (fun i => match i with
                 | Core (MonitorToggled item _) => Some (Monitor.id item)
                 | _ => None
                 end) acts.

(** The ids in the [monitors] field; none when the field is [undefined]. *)
Definition selected (st : State) : list Z :=
  nullish (Schema.monitors (values st)) [].

(** The number of mutation calls in a log. *)
Definition mutations (l : list Effect) : nat :=
  (length (createCalls l) + length (updateCalls l))%nat.

Definition queries (l : list Effect) : list string :=
  omap (fun e => match e with GetSlugUniqueness s => Some s | _ => None end) l.

(** The effects that save, notify or navigate: the two mutations, the
    toasts and the router. *)
Definition outward (e : Effect) : bool :=
  match e with
  | UpdatePage _ | CreatePage _ | RouterReplace _ | RouterPush _
  | RouterRefresh | Toast _ => true
  | _ => false
  end.

(** The sample backend, unreachable for the uniqueness query. *)
Definition offline : Env :=
  mkEnv (slugify Sample.env) (toLowerCase Sample.env)
        (updateSearchParams Sample.env) (resolver Sample.env)
        (fun _ => Rejected) (updatePage Sample.env) (createPage Sample.env)
        (fun _ _ => Rejected).

(** ** Reasoning about handlers *)

Ltac unfold_monad :=
  cbv [bind ret await emit get void try_catch setValues setErrors
       setDebouncedSlug setPending exec outcome fst snd].

Lemma emitted_app {A : Type} (m : M A) (st : State) (l : list Effect) :
  log (exec m st) = log st ++ l -> emitted m st = l.
Proof.
  intros H. unfold emitted. rewrite H. apply drop_app_length.
Qed.

Lemma truthy_true (s : string) : truthy s = true <-> s <> "".
Proof.
  unfold truthy. rewrite negb_true_iff. split.
  - intros H E. apply String.eqb_neq in H. contradiction.
  - intros H. now apply String.eqb_neq.
Qed.

Lemma truthy_false (s : string) : truthy s = false <-> s = "".
Proof.
  unfold truthy. rewrite negb_false_iff. apply String.eqb_eq.
Qed.

(** ** The initial values of the form *)

(** C10. When [checkAllMonitors] is true and [allMonitors] is given, the
    [monitors] field starts as the ids of all the monitors, whatever
    [defaultValues.monitors] holds; in every other case it starts as
    [defaultValues.monitors], or as the empty list when that is absent. *)
Theorem initial_monitors (p : Props.t) :
  (forall all : list Monitor.t,
      Props.checkAllMonitors p = Some true ->
      Props.allMonitors p = Some all ->
      Schema.monitors (initialValues p) = Some (List.map Monitor.id all)) /\
  (Props.checkAllMonitors p <> Some true \/ Props.allMonitors p = None ->
   (forall d l, Props.defaultValues p = Some d -> Schema.monitors d = Some l ->
                Schema.monitors (initialValues p) = Some l) /\
   ((Props.defaultValues p = None \/
     exists d, Props.defaultValues p = Some d /\ Schema.monitors d = None) ->
    Schema.monitors (initialValues p) = Some [])).
Proof.
  unfold initialValues, initialMonitors; simpl. split.
  - intros all Hc Ha. now rewrite Hc, Ha.
  - intros Hno.
    assert (Hdef : match Props.checkAllMonitors p, Props.allMonitors p with
                   | Some true, Some all => List.map Monitor.id all
                   | _, _ => nullish (Props.defaultValues p ≫= Schema.monitors) []
                   end = nullish (Props.defaultValues p ≫= Schema.monitors) []).
    { destruct (Props.checkAllMonitors p) as [[|]|], (Props.allMonitors p);
        try reflexivity.
      destruct Hno as [Hno|Hno]; [now elim Hno | discriminate]. }
    rewrite Hdef. split.
    + intros d l Hd Hl. rewrite Hd. simpl. now rewrite Hl.
    + intros [Hd | (d & Hd & Hl)]; rewrite Hd; simpl; [|rewrite Hl]; reflexivity.
Qed.

Lemma initial_monitors_witness :
  Schema.monitors (initialValues Sample.selectingAll) = Some [5; 9] /\
  Schema.monitors (initialValues Sample.editing) = Some [1; 2] /\
  Schema.monitors (initialValues Sample.creating) = Some [].
Proof.
  split; [|split].
  - apply (proj1 (initial_monitors Sample.selectingAll) _ eq_refl eq_refl).
  - apply (proj1 (proj2 (initial_monitors Sample.editing) (or_intror eq_refl))
                 Sample.acme [1; 2] eq_refl eq_refl).
  - apply (proj2 (proj2 (initial_monitors Sample.creating) (or_intror eq_refl))).
    left. reflexivity.
Defined.

(** ** The uniqueness check *)

Section Uniqueness.

Variable env : Env.
Variable props : Props.t.

Lemma checkUniqueSlug_run (st : State) :
  checkUniqueSlug env props st =
  (match getSlugUniqueness env (debouncedSlug st) with
   | Resolved b => Resolved (b || sameAsOriginal env props (debouncedSlug st))
   | Rejected => Rejected
   end,
   mkState (values st) (errors st) (debouncedSlug st) (isPending st)
           (log st ++ [GetSlugUniqueness (debouncedSlug st)])).
Proof.
  unfold checkUniqueSlug, query_getSlugUniqueness. unfold_monad. simpl.
  destruct (getSlugUniqueness env (debouncedSlug st)); reflexivity.
Qed.

Lemma sameAsOriginal_true (s : string) :
  sameAsOriginal env props s = true <->
  exists d, Props.defaultValues props = Some d /\
            toLowerCase env s = toLowerCase env (Schema.slug d).
Proof.
  unfold sameAsOriginal. destruct (Props.defaultValues props) as [d|].
  - rewrite String.eqb_eq. split.
    + intros H. now exists d.
    + intros (d' & Hd & H). now inversion Hd; subst.
  - split; [discriminate | intros (d & Hd & _); discriminate].
Qed.

Lemma sameAsOriginal_false (s : string) :
  sameAsOriginal env props s = false <->
  forall d, Props.defaultValues props = Some d ->
            toLowerCase env s <> toLowerCase env (Schema.slug d).
Proof.
  rewrite <- not_true_iff_false, sameAsOriginal_true. split.
  - intros H d Hd E. apply H. now exists d.
  - intros H (d & Hd & E). now apply (H d Hd).
Qed.

(** C3. A (debounced) slug that equals the slug of [defaultValues] up to
    letter case passes the check, whatever boolean the remote
    [getSlugUniqueness] answers. *)
Theorem self_match_passes (st : State) (d : Schema.t) (b : bool) :
  Props.defaultValues props = Some d ->
  toLowerCase env (debouncedSlug st) = toLowerCase env (Schema.slug d) ->
  getSlugUniqueness env (debouncedSlug st) = Resolved b ->
  outcome (checkUniqueSlug env props) st = Resolved true.
Proof.
  intros Hd Hlow Hb. unfold outcome. rewrite checkUniqueSlug_run, Hb. simpl.
  assert (Hs : sameAsOriginal env props (debouncedSlug st) = true).
  { apply sameAsOriginal_true. now exists d. }
  rewrite Hs. now rewrite orb_true_r.
Qed.

(** C6. When the check on the debounced slug fails, i.e. the remote answers
    "not unique" and the slug differs from the original one also up to
    letter case, the effect sets the error of the slug field to "Already
    taken. Please select another slug."; when the check passes it clears
    that error.  No other field error and no field value is touched. *)
Theorem slug_error_follows_check (st : State) (b : bool) :
  getSlugUniqueness env (debouncedSlug st) = Resolved b ->
  let st' := exec (watchSlugChanges env props) st in
  ((b = false /\
    forall d, Props.defaultValues props = Some d ->
              toLowerCase env (debouncedSlug st) <> toLowerCase env (Schema.slug d)) ->
   errors st' !! "slug" = Some slugTakenMessage) /\
  ((b = true \/
    exists d, Props.defaultValues props = Some d /\
              toLowerCase env (debouncedSlug st) = toLowerCase env (Schema.slug d)) ->
   errors st' !! "slug" = None) /\
  (forall field : string, field <> "slug" -> errors st' !! field = errors st !! field) /\
  values st' = values st.
Proof.
  intros Hb st'. subst st'.
  unfold watchSlugChanges, exec, bind. rewrite checkUniqueSlug_run, Hb.
  unfold form_setError_slug, form_clearErrors_slug, setErrors.
  repeat split.
  - intros [-> Hdiff]. apply sameAsOriginal_false in Hdiff. rewrite Hdiff. simpl.
    apply lookup_insert_eq.
  - intros Hpass.
    assert (Hor : b || sameAsOriginal env props (debouncedSlug st) = true).
    { destruct Hpass as [-> | Hsame]; [reflexivity|].
      apply sameAsOriginal_true in Hsame. rewrite Hsame. apply orb_true_r. }
    rewrite Hor. simpl. apply lookup_delete_eq.
  - intros field Hne.
    destruct (b || sameAsOriginal env props (debouncedSlug st)); simpl.
    + now apply lookup_delete_ne.
    + now apply lookup_insert_ne.
  - destruct (b || sameAsOriginal env props (debouncedSlug st)); reflexivity.
Qed.

End Uniqueness.

Lemma self_match_passes_witness :
  let st := run Sample.env Sample.editing [SlugInput "ACME"; DebounceSettled]
                (mount Sample.env Sample.editing) in
  getSlugUniqueness Sample.env (debouncedSlug st) = Resolved false /\
  outcome (checkUniqueSlug Sample.env Sample.editing) st = Resolved true.
Proof.
  split; [reflexivity|].
  apply (self_match_passes Sample.env Sample.editing _ Sample.acme false);
    reflexivity.
Defined.

Lemma slug_error_follows_check_witness :
  let settle (st : State) := exec (setDebouncedSlug (watchSlug st)) st in
  let taken :=
    settle (run Sample.env Sample.creating [SlugInput "Acme"]
                (mount Sample.env Sample.creating)) in
  let marked := exec (watchSlugChanges Sample.env Sample.creating) taken in
  let free := settle (run Sample.env Sample.creating [SlugInput "acme-2"] marked) in
  errors marked !! "slug" = Some slugTakenMessage /\
  errors (exec (watchSlugChanges Sample.env Sample.creating) free) !! "slug" = None.
Proof.
  intros settle taken marked free. split.
  - apply (proj1 (slug_error_follows_check Sample.env Sample.creating taken false
                    eq_refl)).
    split; [reflexivity | intros d Hd; discriminate Hd].
  - apply (proj1 (proj2 (slug_error_follows_check Sample.env Sample.creating free true
                           eq_refl))).
    left. reflexivity.
Defined.

(** ** Deriving the slug from the title *)

Section TitleToSlug.

Variable env : Env.
Variable props : Props.t.

Lemma noDefaultTitle_true :
  noDefaultTitle props = true <->
  forall d, Props.defaultValues props = Some d -> Schema.title d = "".
Proof.
  unfold noDefaultTitle. destruct (Props.defaultValues props) as [d|].
  - rewrite negb_true_iff, truthy_false. split.
    + intros H d' Hd. now inversion Hd; subst.
    + intros H. now apply H.
  - split; [intros _ d Hd; discriminate | reflexivity].
Qed.

Lemma noDefaultTitle_false :
  noDefaultTitle props = false <->
  exists d, Props.defaultValues props = Some d /\ Schema.title d <> "".
Proof.
  unfold noDefaultTitle. destruct (Props.defaultValues props) as [d|].
  - rewrite negb_false_iff, truthy_true. split.
    + intros H. now exists d.
    + intros (d' & Hd & H). now inversion Hd; subst.
  - split; [discriminate | intros (d & Hd & _); discriminate].
Qed.

Lemma titleEffect_idle (st : State) :
  noDefaultTitle props = false -> titleEffect env props st = (Resolved tt, st).
Proof.
  intros H. unfold titleEffect. unfold_monad. now rewrite H.
Qed.

Lemma onTitleInput_idle (t : string) (st : State) :
  noDefaultTitle props = false ->
  exec (onTitleInput env props t) st =
  mkState (Schema.with_title t (values st)) (errors st) (debouncedSlug st)
          (isPending st) (log st).
Proof.
  intros H. unfold onTitleInput, titleEffect. unfold_monad. simpl.
  rewrite H. now destruct (String.eqb t (watchTitle st)).
Qed.

(** C4. While the component is mounted without a title in [defaultValues]
    (none given, or an empty one), a change of the title field to [T] leaves
    the slug field at [slugify(T)] once the change has been processed. *)
Theorem title_change_sets_slug (st : State) (T : string) :
  (forall d, Props.defaultValues props = Some d -> Schema.title d = "") ->
  T <> watchTitle st ->
  let st' := step env props st (TitleInput T) in
  watchTitle st' = T /\ watchSlug st' = slugify env T.
Proof.
  intros Hno Hchg. apply noDefaultTitle_true in Hno.
  unfold step, handle, onTitleInput, titleEffect, form_setValue_slug.
  unfold_monad. simpl.
  apply String.eqb_neq in Hchg. rewrite Hchg, Hno. simpl. split; reflexivity.
Qed.

(** C5. With a non-empty title in [defaultValues] the effect that derives
    the slug does nothing: it leaves the state as it is when it runs, the
    slug field after mounting is the slug of [defaultValues], and no
    sequence of title edits changes the slug field. *)
Theorem title_edits_keep_slug (d : Schema.t) (ts : list string) (st : State) :
  Props.defaultValues props = Some d ->
  Schema.title d <> "" ->
  titleEffect env props st = (Resolved tt, st) /\
  watchSlug (mount env props) = Schema.slug d /\
  watchSlug (run env props (TitleInput <$> ts) st) = watchSlug st.
Proof.
  intros Hd Ht.
  assert (Hidle : noDefaultTitle props = false).
  { apply noDefaultTitle_false. now exists d. }
  split; [now apply titleEffect_idle | split].
  - unfold mount, exec, bind, slugEffect, void, watchSlugChanges, bind.
    rewrite checkUniqueSlug_run. cbn [snd].
    match goal with
    | |- context [titleEffect env props ?s] => rewrite (titleEffect_idle s Hidle)
    end.
    cbn [snd debouncedSlug firstRender].
    assert (Hslug : forall o l,
               watchSlug (snd ((match o with
                                | Resolved b =>
                                    if negb b then form_setError_slug slugTakenMessage
                                    else form_clearErrors_slug
                                | Rejected => fun s => (Rejected, s)
                                end)
                               (mkState (initialValues props) ∅
                                        (Schema.slug (initialValues props)) false l)))
               = Schema.slug d).
    { intros [[|]|] l; cbn; unfold initialValues; rewrite Hd; cbn;
        unfold or_string; destruct (truthy (Schema.slug d)) eqn:E; try reflexivity;
        apply truthy_false in E; now rewrite E. }
    destruct (getSlugUniqueness env (Schema.slug (initialValues props))) as [b|];
      [apply (Hslug (Resolved (b || _)))| apply (Hslug Rejected)].
  - revert st. induction ts as [|t ts IH]; intros st; [reflexivity|].
    cbn [fmap list_fmap run foldl]. unfold run in IH. rewrite IH.
    unfold step, handle. now rewrite onTitleInput_idle.
Qed.

End TitleToSlug.

Lemma title_change_sets_slug_witness :
  let st := mount Sample.env Sample.creating in
  watchSlug (step Sample.env Sample.creating st (TitleInput "Acme Status"))
  = "acme-status".
Proof.
  apply (title_change_sets_slug Sample.env Sample.creating
           (mount Sample.env Sample.creating) "Acme Status").
  - intros d Hd. discriminate Hd.
  - vm_compute. discriminate.
Defined.

Lemma title_edits_keep_slug_witness :
  watchSlug (run Sample.env Sample.editing
               (TitleInput <$> ["Acme"; "Acme S"; "Acme St"])
               (mount Sample.env Sample.editing)) = "acme".
Proof.
  rewrite (proj2 (proj2 (title_edits_keep_slug Sample.env Sample.editing
                           Sample.acme ["Acme"; "Acme S"; "Acme St"]
                           (mount Sample.env Sample.editing) eq_refl
                           ltac:(vm_compute; discriminate)))).
  reflexivity.
Defined.

(** ** Submitting *)

Section Submission.

Variable env : Env.
Variable props : Props.t.

Lemma onSubmit_run (data : Schema.t) (st : State) :
  onSubmit env props data st =
  (Resolved tt,
   mkState (values st) (errors st) (debouncedSlug st) false
           (log st ++ submitTrace env props data)).
Proof.
  unfold onSubmit, startTransition, submitTrace, afterSuccess,
    mutate_updatePage, mutate_createPage, toast.
  unfold_monad. simpl.
  destruct (Props.defaultValues props) as [d|].
  - destruct (updatePage env data) as [[]|]; simpl.
    + destruct (Props.nextUrl props) as [u|]; [destruct (truthy u)|];
        simpl; rewrite <- ?app_assoc; reflexivity.
    + rewrite <- ?app_assoc; reflexivity.
  - destruct (createPage env _) as [page|]; simpl.
    + destruct (Props.nextUrl props) as [u|]; [destruct (truthy u)|];
        simpl; rewrite <- ?app_assoc; reflexivity.
    + rewrite <- ?app_assoc; reflexivity.
Qed.

Lemma onSubmit_emitted (data : Schema.t) (st : State) :
  emitted (onSubmit env props data) st = submitTrace env props data.
Proof.
  apply emitted_app. unfold exec. now rewrite onSubmit_run.
Qed.

Lemma afterSuccess_calls :
  createCalls (afterSuccess props) = [] /\ updateCalls (afterSuccess props) = [] /\
  replaces (afterSuccess props) = [].
Proof.
  unfold afterSuccess.
  destruct (Props.nextUrl props) as [u|]; [destruct (truthy u)|];
    repeat split; reflexivity.
Qed.

Lemma submitTrace_calls (data : Schema.t) :
  match Props.defaultValues props with
  | Some _ =>
      updateCalls (submitTrace env props data) = [data] /\
      createCalls (submitTrace env props data) = []
  | None =>
      createCalls (submitTrace env props data)
      = [Schema.with_workspaceSlug (Props.workspaceSlug props) data] /\
      updateCalls (submitTrace env props data) = []
  end.
Proof.
  destruct afterSuccess_calls as (Hc & Hu & _).
  unfold submitTrace. remember (afterSuccess props) as tail eqn:E. clear E.
  unfold createCalls, updateCalls in *.
  destruct (Props.defaultValues props) as [d|].
  - destruct (updatePage env data) as [[]|]; cbn; rewrite ?Hc, ?Hu; now split.
  - destruct (createPage env _) as [page|]; cbn; rewrite ?Hc, ?Hu; now split.
Qed.

(** The whole submit event when the gate lets it through and the draft is
    valid. *)
Lemma form_onSubmit_valid (st : State) :
  outcome (checkUniqueSlug env props) st = Resolved true ->
  Resolution.errors (resolver env (values st)) = ∅ ->
  form_onSubmit env props st =
  (Resolved tt,
   mkState (values st) ∅ (debouncedSlug st) false
           (log st ++ PreventDefault :: GetSlugUniqueness (debouncedSlug st)
                   :: submitTrace env props (Resolution.values (resolver env (values st))))).
Proof.
  unfold outcome. rewrite checkUniqueSlug_run. cbn [fst]. intros Hu Hv.
  unfold form_onSubmit, bind at 1. cbn [emit].
  unfold bind at 1. rewrite checkUniqueSlug_run. cbn [debouncedSlug values errors isPending log].
  destruct (getSlugUniqueness env (debouncedSlug st)) as [b|]; [|discriminate].
  injection Hu as Hu. rewrite Hu. cbn [negb].
  unfold void, form_handleSubmit. unfold_monad. cbn [values errors log debouncedSlug isPending].
  rewrite Hv. destruct (decide (∅ = ∅)) as [_|Hne]; [|now elim Hne].
  rewrite onSubmit_run. cbn. rewrite <- !app_assoc. reflexivity.
Qed.

(** C1 (amended). A submit event whose debounced slug passes the check of
    the handler and whose draft the resolver accepts calls [createPage]
    exactly once, with the prop [workspaceSlug] written into the input, and
    never [updatePage], when the component has no [defaultValues]; it calls
    [updatePage] exactly once and never [createPage] when [defaultValues] is
    there. *)
Theorem create_xor_update (st : State) :
  outcome (checkUniqueSlug env props) st = Resolved true ->
  Resolution.errors (resolver env (values st)) = ∅ ->
  let sent := emitted (form_onSubmit env props) st in
  let data := Resolution.values (resolver env (values st)) in
  (Props.defaultValues props = None ->
   createCalls sent = [Schema.with_workspaceSlug (Props.workspaceSlug props) data] /\
   updateCalls sent = []) /\
  (forall d, Props.defaultValues props = Some d ->
   updateCalls sent = [data] /\ createCalls sent = []).
Proof.
  intros Hu Hv sent data.
  assert (Hsent : sent = PreventDefault :: GetSlugUniqueness (debouncedSlug st)
                          :: submitTrace env props data).
  { apply emitted_app. unfold exec. now rewrite form_onSubmit_valid. }
  rewrite Hsent. cbn [createCalls updateCalls omap list_omap].
  fold (createCalls (submitTrace env props data)). fold (updateCalls (submitTrace env props data)).
  pose proof (submitTrace_calls data) as H.
  split.
  - intros Hd. now rewrite Hd in H.
  - intros d Hd. now rewrite Hd in H.
Qed.

(** C7. When the mutation that [onSubmit] calls throws, the toast "error" is
    the only thing that follows the call: the field values and the field
    errors are as before, no [router.replace] changes the query string, no
    [router.push] navigates to [nextUrl], and no [router.refresh] is
    issued. *)
Theorem mutation_failure_only_toasts (data : Schema.t) (st : State) :
  mutationRejected env props data ->
  let st' := exec (onSubmit env props data) st in
  let sent := emitted (onSubmit env props data) st in
  sent = [mutationCall props data; Toast "error"] /\
  toasts sent = ["error"] /\
  values st' = values st /\
  errors st' = errors st /\
  replaces sent = [] /\
  pushes sent = [] /\
  refreshes sent = 0%nat.
Proof.
  intros Hrej st' sent. subst st' sent.
  rewrite onSubmit_emitted. unfold exec. rewrite onSubmit_run.
  unfold mutationRejected in Hrej. unfold submitTrace, mutationCall.
  destruct (Props.defaultValues props) as [d|]; rewrite Hrej;
    repeat split; reflexivity.
Qed.

(** C8 (amended). [router.replace] is called on the successful create path
    only.  A successful update and a failed mutation leave the query string
    alone.  A successful create replaces it by [updateSearchParams({ id })],
    where [id] is the id of the page that [createPage] returned when there is
    one and it is not zero, and [null] when [createPage] returned no page or
    a page with the id zero. *)
Theorem query_string_replaced_on_create (data : Schema.t) (st : State) :
  let sent := emitted (onSubmit env props data) st in
  let input := Schema.with_workspaceSlug (Props.workspaceSlug props) data in
  (forall d, Props.defaultValues props = Some d -> replaces sent = []) /\
  (mutationRejected env props data -> replaces sent = []) /\
  (forall p, Props.defaultValues props = None ->
             createPage env input = Resolved (Some p) -> Page.id p <> 0 ->
             replaces sent = ["?" +:+ updateSearchParams env (Some (Page.id p))]) /\
  (forall page, Props.defaultValues props = None ->
                createPage env input = Resolved page ->
                page = None \/ (exists p, page = Some p /\ Page.id p = 0) ->
                replaces sent = ["?" +:+ updateSearchParams env None]).
Proof.
  intros sent input. subst sent input. rewrite onSubmit_emitted.
  destruct afterSuccess_calls as (_ & _ & Hr).
  unfold submitTrace, mutationRejected. remember (afterSuccess props) as tail eqn:E. clear E.
  unfold replaces in *.
  repeat split.
  - intros d Hd. rewrite Hd.
    destruct (updatePage env data) as [[]|]; cbn; rewrite ?Hr; reflexivity.
  - destruct (Props.defaultValues props) as [d|]; intros Hrej; rewrite Hrej;
      reflexivity.
  - intros p Hd Hp Hid. rewrite Hd, Hp. cbn. rewrite Hr.
    apply Z.eqb_neq in Hid. now rewrite Hid.
  - intros page Hd Hp Hpage. rewrite Hd, Hp. cbn. rewrite Hr.
    destruct Hpage as [-> | (p & -> & Hid)]; [reflexivity|].
    cbn. now rewrite Hid.
Qed.

(** C2 (amended). The submit handler runs [checkUniqueSlug] at once, and
    that callback asks about the debounced slug.  Whenever this check
    answers "not unique", the handler shows the toast "unique-slug" and
    stops: no mutation is called and the form is left as it is. *)
Theorem submit_gate (st : State) :
  outcome (checkUniqueSlug env props) st = Resolved false ->
  let st' := exec (form_onSubmit env props) st in
  let sent := emitted (form_onSubmit env props) st in
  sent = [PreventDefault; GetSlugUniqueness (debouncedSlug st); Toast "unique-slug"] /\
  createCalls sent = [] /\
  updateCalls sent = [] /\
  values st' = values st /\
  errors st' = errors st.
Proof.
  intros Hu st' sent.
  unfold outcome in Hu. rewrite checkUniqueSlug_run in Hu. cbn [fst] in Hu.
  assert (Hrun : form_onSubmit env props st =
                 (Resolved tt,
                  mkState (values st) (errors st) (debouncedSlug st) (isPending st)
                          (log st ++ [PreventDefault; GetSlugUniqueness (debouncedSlug st);
                                      Toast "unique-slug"]))).
  { unfold form_onSubmit, bind at 1. cbn [emit].
    unfold bind at 1. rewrite checkUniqueSlug_run.
    cbn [debouncedSlug values errors isPending log].
    destruct (getSlugUniqueness env (debouncedSlug st)) as [b|]; [|discriminate].
    injection Hu as Hu. rewrite Hu. cbn [negb]. unfold toast, emit.
    cbn [values errors debouncedSlug isPending log].
    rewrite <- !app_assoc. reflexivity. }
  assert (Hsent : sent = [PreventDefault; GetSlugUniqueness (debouncedSlug st);
                          Toast "unique-slug"]).
  { apply emitted_app. unfold exec. now rewrite Hrun. }
  subst st'. unfold exec. rewrite Hsent, Hrun. repeat split; reflexivity.
Qed.

End Submission.

Lemma create_xor_update_witness :
  let st := run Sample.env Sample.creating
                [TitleInput "Acme Status"; SlugInput "status"; DebounceSettled]
                (mount Sample.env Sample.creating) in
  let st2 := run Sample.env Sample.editing
                 [TitleInput "Acme"; SlugInput "Acme"; DebounceSettled]
                 (mount Sample.env Sample.editing) in
  (createCalls (emitted (form_onSubmit Sample.env Sample.creating) st)
   = [Schema.with_workspaceSlug "my-team" (values st)] /\
   updateCalls (emitted (form_onSubmit Sample.env Sample.creating) st) = []) /\
  (updateCalls (emitted (form_onSubmit Sample.env Sample.editing) st2)
   = [values st2] /\
   createCalls (emitted (form_onSubmit Sample.env Sample.editing) st2) = []).
Proof.
  intros st st2. split.
  - apply (proj1 (create_xor_update Sample.env Sample.creating st eq_refl eq_refl)
                 eq_refl).
  - apply (proj2 (create_xor_update Sample.env Sample.editing st2 eq_refl eq_refl)
                 Sample.acme eq_refl).
Defined.

Lemma mutation_failure_only_toasts_witness :
  let st := run Sample.failing Sample.editing [TitleInput "Acme"]
                (mount Sample.failing Sample.editing) in
  emitted (onSubmit Sample.failing Sample.editing (values st)) st
  = [UpdatePage (values st); Toast "error"] /\
  values (exec (onSubmit Sample.failing Sample.editing (values st)) st) = values st.
Proof.
  intros st.
  pose proof (mutation_failure_only_toasts Sample.failing Sample.editing
                (values st) st eq_refl) as (H1 & _ & H2 & _).
  split; [exact H1 | exact H2].
Defined.

Lemma query_string_replaced_on_create_witness :
  let st := mount Sample.env Sample.creating in
  replaces (emitted (onSubmit Sample.env Sample.creating Sample.acme) st)
  = ["?id=42"] /\
  replaces (emitted (onSubmit (Sample.answering None) Sample.creating Sample.acme) st)
  = ["?"] /\
  replaces (emitted (onSubmit Sample.env Sample.editing Sample.acme) st) = [] /\
  replaces (emitted (onSubmit Sample.failing Sample.creating Sample.acme) st) = [].
Proof.
  intros st. split; [|split; [|split]].
  - apply (proj1 (proj2 (proj2
             (query_string_replaced_on_create Sample.env Sample.creating Sample.acme st)))
             (Page.mk 42) eq_refl eq_refl).
    discriminate.
  - apply (proj2 (proj2 (proj2
             (query_string_replaced_on_create (Sample.answering None) Sample.creating
                Sample.acme st)))
             None eq_refl eq_refl).
    left. reflexivity.
  - apply (proj1 (query_string_replaced_on_create Sample.env Sample.editing
                    Sample.acme st) Sample.acme eq_refl).
  - apply (proj1 (proj2 (query_string_replaced_on_create Sample.failing Sample.creating
                           Sample.acme st)) eq_refl).
Defined.

Lemma submit_gate_witness :
  let st := run Sample.env Sample.creating [SlugInput "acme"; DebounceSettled]
                (mount Sample.env Sample.creating) in
  emitted (form_onSubmit Sample.env Sample.creating) st
  = [PreventDefault; GetSlugUniqueness "acme"; Toast "unique-slug"] /\
  createCalls (emitted (form_onSubmit Sample.env Sample.creating) st) = [] /\
  updateCalls (emitted (form_onSubmit Sample.env Sample.creating) st) = [].
Proof.
  intros st.
  pose proof (submit_gate Sample.env Sample.creating st eq_refl) as (H1 & H2 & H3 & _).
  split; [exact H1 | split; [exact H2 | exact H3]].
Defined.

(** ** Counterexamples to the wording of the specification *)

(** C1, as stated, fails.  The user has settled on the taken slug "acme",
    changes it to the free slug "status" and submits before the debounce
    delay is over: the draft is valid and its slug is unique, but the
    handler asks about "acme", shows the toast "unique-slug" and calls no
    mutation. *)
Lemma submit_refuses_unique_slug :
  let st := run Sample.env Sample.creating
                [TitleInput "Acme Status"; SlugInput "acme"; DebounceSettled;
                 SlugInput "status"]
                (mount Sample.env Sample.creating) in
  let sent := emitted (form_onSubmit Sample.env Sample.creating) st in
  Props.defaultValues Sample.creating = None /\
  watchSlug st = "status" /\
  getSlugUniqueness Sample.env (watchSlug st) = Resolved true /\
  Resolution.errors (resolver Sample.env (values st)) = ∅ /\
  sent = [PreventDefault; GetSlugUniqueness "acme"; Toast "unique-slug"] /\
  createCalls sent = [] /\
  length (createCalls sent) <> 1%nat.
Proof.
  intros st sent.
  assert (Hsent : sent = [PreventDefault; GetSlugUniqueness "acme";
                          Toast "unique-slug"])
    by (vm_compute; reflexivity).
  rewrite Hsent.
  split; [reflexivity|]. split; [reflexivity|]. split; [reflexivity|].
  split; [vm_compute; reflexivity|]. split; [reflexivity|].
  split; [reflexivity | cbn; discriminate].
Qed.

(** C2, as stated, fails.  The user has settled on the free slug "status",
    changes it to the taken slug "acme" and submits before the debounce
    delay is over: the handler asks the backend about "status", not about
    the current slug, and creates the page with the slug "acme". *)
Lemma submit_checks_debounced_slug :
  let st := run Sample.env Sample.creating
                [TitleInput "Acme Status"; SlugInput "status"; DebounceSettled;
                 SlugInput "acme"]
                (mount Sample.env Sample.creating) in
  watchSlug st = "acme" /\
  debouncedSlug st = "status" /\
  currentSlugNotUnique Sample.env Sample.creating st /\
  emitted (form_onSubmit Sample.env Sample.creating) st
  = [PreventDefault; GetSlugUniqueness "status";
     CreatePage (Schema.mk "Acme Status" "acme" "" 0 0 (Some []) "" "my-team" "");
     RouterReplace "?id=42"; Toast "saved"; RouterRefresh] /\
  ~ submissionAborted Sample.env Sample.creating st.
Proof.
  intros st.
  assert (Hsent : emitted (form_onSubmit Sample.env Sample.creating) st
                  = [PreventDefault; GetSlugUniqueness "status";
                     CreatePage (Schema.mk "Acme Status" "acme" "" 0 0 (Some []) ""
                                           "my-team" "");
                     RouterReplace "?id=42"; Toast "saved"; RouterRefresh])
    by (vm_compute; reflexivity).
  repeat split; try reflexivity; try exact Hsent.
  intros (Ht & _). unfold submissionAborted in *. rewrite Hsent in Ht.
  discriminate Ht.
Qed.

(** C8, as stated, fails.  A [createPage] that resolves without a page is a
    successful create (the toast "saved" follows), there is no id to put
    into the query string, and [updateSearchParams] is called with
    [id: null]; the same happens for a page with the id zero. *)
Lemma create_without_id :
  let st := mount Sample.env Sample.creating in
  (emitted (onSubmit (Sample.answering None) Sample.creating Sample.acme) st
   = [CreatePage (Schema.with_workspaceSlug "my-team" Sample.acme);
      RouterReplace "?"; Toast "saved"; RouterRefresh] /\
   ~ queryCarriesReturnedId (Sample.answering None) Sample.creating Sample.acme st) /\
  (replaces (emitted (onSubmit (Sample.answering (Some (Page.mk 0))) Sample.creating
                        Sample.acme) st) = ["?"] /\
   ~ queryCarriesReturnedId (Sample.answering (Some (Page.mk 0))) Sample.creating
       Sample.acme st).
Proof.
  intros st. split; split; try (vm_compute; reflexivity).
  - intros (p & Hp & _). discriminate Hp.
  - intros (p & Hp & Hr). injection Hp as <-. vm_compute in Hr. discriminate Hr.
Qed.

(** ** The favicon *)

Section Icon.

Variable env : Env.

Lemma handleChange_run (f : File.t) (rest : list File.t) (blob : PutBlobResult.t)
    (st : State) :
  let url := "/api/upload?filename=" +:+ File.name f in
  upload env url f = Resolved blob ->
  handleChange env (Some (f :: rest)) st =
  (Resolved tt,
   mkState (Schema.with_icon (PutBlobResult.url blob) (values st)) (errors st)
           (debouncedSlug st) (isPending st)
           (log st ++ [ConsoleLogFile f; Fetch url f;
                       ConsoleLog (PutBlobResult.url blob)])).
Proof.
  intros url Hup. unfold handleChange, form_setValue_icon. unfold_monad.
  fold url. rewrite Hup. cbn. rewrite <- !app_assoc. reflexivity.
Qed.

(** C9 (amended). When a file has been selected and the upload answers
    [{ url: U }], the icon field holds exactly [U] and nothing else in the
    draft has changed; the favicon control then shows the preview of [U]
    provided [U] is not empty.  "Remove" sets the icon field to the empty
    string and the control shows the file picker again.  Without a file
    ([null] or an empty [FileList]) the handler returns and the state is the
    one it started from. *)
Theorem icon_follows_upload (st : State) :
  (forall f rest blob,
      upload env ("/api/upload?filename=" +:+ File.name f) f = Resolved blob ->
      let st' := exec (handleChange env (Some (f :: rest))) st in
      values st' = Schema.with_icon (PutBlobResult.url blob) (values st) /\
      Schema.icon (values st') = PutBlobResult.url blob /\
      (PutBlobResult.url blob <> "" ->
       renderIcon st' = Preview (PutBlobResult.url blob))) /\
  (let st' := exec removeIcon st in
   Schema.icon (values st') = "" /\ renderIcon st' = FilePicker) /\
  (forall file, file = None \/ file = Some [] ->
                handleChange env file st = (Resolved tt, st)).
Proof.
  split; [|split].
  - intros f rest blob Hup st'. subst st'. unfold exec.
    rewrite (handleChange_run f rest blob st Hup). cbn [snd values].
    split; [reflexivity | split; [reflexivity|]].
    intros Hne. unfold renderIcon. cbn [values Schema.with_icon Schema.icon].
    apply truthy_true in Hne. now rewrite Hne.
  - split; reflexivity.
  - intros file [-> | ->]; reflexivity.
Qed.

End Icon.

Lemma icon_follows_upload_witness :
  let st := mount Sample.env Sample.creating in
  let st' := exec (handleChange Sample.env (Some [Sample.favicon])) st in
  Schema.icon (values st') = "https://blob.example/favicon.png" /\
  renderIcon st' = Preview "https://blob.example/favicon.png" /\
  renderIcon (exec removeIcon st') = FilePicker /\
  handleChange Sample.env (Some []) st = (Resolved tt, st).
Proof.
  intros st st'.
  destruct (icon_follows_upload Sample.env st) as (Hup & _ & Hnone).
  destruct (Hup Sample.favicon [] _ eq_refl) as (_ & Hicon & Hview).
  destruct (icon_follows_upload Sample.env st') as (_ & (_ & Hrm) & _).
  split; [exact Hicon | split; [|split]].
  - apply Hview. discriminate.
  - exact Hrm.
  - apply Hnone. right. reflexivity.
Defined.

(** C9, as stated, fails.  An upload that answers [{ url: "" }] puts the
    empty string into the icon field, and the favicon control keeps showing
    the file picker: it shows the preview for a non-empty value only. *)
Lemma empty_url_keeps_file_picker :
  let st := mount Sample.env Sample.creating in
  let st' := exec (handleChange (Sample.uploading "") (Some [Sample.favicon])) st in
  upload (Sample.uploading "") "/api/upload?filename=favicon.png" Sample.favicon
  = Resolved (PutBlobResult.mk "") /\
  Schema.icon (values st') = "" /\
  renderIcon st' = FilePicker /\
  renderIcon st' <> Preview "".
Proof.
  intros st st'. split; [reflexivity | split; [reflexivity | split]].
  - reflexivity.
  - vm_compute. discriminate.
Qed.

(** ** The first render and the mount *)

Lemma or_string_some (s : string) : or_string (Some s) "" = s.
Proof.
  unfold or_string. destruct (truthy s) eqn:E; [reflexivity|].
  apply truthy_false in E. now rewrite E.
Qed.

Lemma or_number_some (n : Z) : or_number (Some n) 0 = n.
Proof.
  unfold or_number. destruct (Z.eqb n 0) eqn:E; [|reflexivity].
  apply Z.eqb_eq in E. now rewrite E.
Qed.

(** X1. The form starts from [defaultValues] field by field: title, slug,
    description, workspace id, id, custom domain and icon are the ones given,
    the [workspaceSlug] field is emptied, and [monitors] is the initial
    selection.  Without [defaultValues] every text field is empty and both
    numbers are zero. *)
Theorem initial_values_reproduce_defaults (p : Props.t) :
  (forall d, Props.defaultValues p = Some d ->
     initialValues p =
     Schema.mk (Schema.title d) (Schema.slug d) (Schema.description d)
               (Schema.workspaceId d) (Schema.id d) (Some (initialMonitors p))
               (Schema.customDomain d) "" (Schema.icon d)) /\
  (Props.defaultValues p = None ->
     initialValues p =
     Schema.mk "" "" "" 0 0 (Some (initialMonitors p)) "" "" "").
Proof.
  unfold initialValues. split.
  - intros d Hd. rewrite Hd. cbn [fmap option_fmap option_map].
    now rewrite !or_string_some, !or_number_some.
  - intros Hd. now rewrite Hd.
Qed.

Lemma initial_values_reproduce_defaults_witness :
  initialValues Sample.editing =
  Schema.mk "Acme Status" "acme" "All systems" 7 3 (Some [1; 2]) "" "" "" /\
  initialValues Sample.creating = Schema.mk "" "" "" 0 0 (Some []) "" "" "".
Proof.
  split.
  - apply (proj1 (initial_values_reproduce_defaults Sample.editing) Sample.acme
                 eq_refl).
  - apply (proj2 (initial_values_reproduce_defaults Sample.creating) eq_refl).
Defined.

Section Mounting.

Variable env : Env.
Variable props : Props.t.

Lemma slugEffect_run (st : State) :
  slugEffect env props st =
  (Resolved tt,
   mkState (values st)
           (match getSlugUniqueness env (debouncedSlug st) with
            | Resolved b =>
                if b || sameAsOriginal env props (debouncedSlug st)
                then delete "slug" (errors st)
                else <["slug" := slugTakenMessage]> (errors st)
            | Rejected => errors st
            end)
           (debouncedSlug st) (isPending st)
           (log st ++ [GetSlugUniqueness (debouncedSlug st)])).
Proof.
  unfold slugEffect, void, watchSlugChanges, bind.
  rewrite checkUniqueSlug_run.
  destruct (getSlugUniqueness env (debouncedSlug st)) as [b|]; [|reflexivity].
  destruct (b || sameAsOriginal env props (debouncedSlug st)); reflexivity.
Qed.

Lemma mount_values :
  values (mount env props) =
  if noDefaultTitle props
  then Schema.with_slug (slugify env (Schema.title (initialValues props)))
                        (initialValues props)
  else initialValues props.
Proof.
  unfold mount, exec, bind. rewrite slugEffect_run.
  unfold titleEffect, form_setValue_slug. unfold_monad.
  destruct (noDefaultTitle props); reflexivity.
Qed.

(** X2. With [checkAllMonitors] and a list [allMonitors], the checkbox of
    every monitor of the list is checked in the first render and after the
    effects of the mount have run. *)
Theorem all_monitors_preselected (all : list Monitor.t) (item : Monitor.t) :
  Props.checkAllMonitors props = Some true ->
  Props.allMonitors props = Some all ->
  In item all ->
  isChecked item (firstRender props) = true /\
  isChecked item (mount env props) = true.
Proof.
  intros Hc Ha Hin.
  assert (Hmon : Schema.monitors (initialValues props)
                 = Some (List.map Monitor.id all)).
  { unfold initialValues, initialMonitors. cbn. now rewrite Hc, Ha. }
  assert (Hid : Monitor.id item ∈ List.map Monitor.id all).
  { apply list_elem_of_In. now apply in_map. }
  split.
  - unfold isChecked, firstRender. cbn [values]. rewrite Hmon.
    now apply bool_decide_eq_true.
  - unfold isChecked. rewrite mount_values.
    destruct (noDefaultTitle props); cbn [Schema.with_slug Schema.monitors];
      rewrite Hmon; now apply bool_decide_eq_true.
Qed.

(** X3. When the component is mounted without a title in [defaultValues],
    the mount itself overwrites the slug field with [slugify("")], whatever
    slug [defaultValues] carried; every other field keeps its initial
    value. *)
Theorem mount_derives_slug_from_empty_title :
  (forall d, Props.defaultValues props = Some d -> Schema.title d = "") ->
  values (mount env props)
  = Schema.with_slug (slugify env "") (initialValues props).
Proof.
  intros Hno. rewrite mount_values.
  assert (Ht : Schema.title (initialValues props) = "").
  { unfold initialValues. cbn [Schema.title].
    destruct (Props.defaultValues props) as [d|] eqn:Hd; [|reflexivity].
    cbn [fmap option_fmap option_map]. rewrite or_string_some. now apply Hno. }
  rewrite Ht. apply noDefaultTitle_true in Hno. now rewrite Hno.
Qed.

End Mounting.

Lemma all_monitors_preselected_witness :
  isChecked (Monitor.mk 9 "web" "https://w") (mount Sample.env Sample.selectingAll)
  = true.
Proof.
  apply (all_monitors_preselected Sample.env Sample.selectingAll
           [Monitor.mk 5 "api" "https://a"; Monitor.mk 9 "web" "https://w"]
           (Monitor.mk 9 "web" "https://w") eq_refl eq_refl).
  right. left. reflexivity.
Defined.

Lemma mount_derives_slug_from_empty_title_witness :
  let untitled :=
    Props.mk (Some (Schema.mk "" "acme" "" 7 3 None "" "" "")) "my-team"
             None None None in
  watchSlug (mount Sample.env untitled) = "".
Proof.
  intros untitled. unfold watchSlug.
  rewrite (mount_derives_slug_from_empty_title Sample.env untitled).
  - reflexivity.
  - intros d Hd. injection Hd as <-. reflexivity.
Defined.

(** ** The monitor checkboxes *)

Section Checkboxes.

Lemma onCheckedChange_run (item : Monitor.t) (checked : bool) (st : State) :
  onCheckedChange item checked st =
  (Resolved tt,
   mkState
     (Schema.with_monitors
        (if checked
         then Some (selected st ++ [Monitor.id item])
         else filter (fun v => v ≠ Monitor.id item) <$> Schema.monitors (values st))
        (values st))
     (errors st) (debouncedSlug st) (isPending st) (log st)).
Proof. reflexivity. Qed.

(** X4. Ticking the checkbox of a monitor appends its id to the selection,
    after which that checkbox renders as checked; the checkboxes of monitors
    with another id render as before. *)
Theorem checking_selects (item : Monitor.t) (st : State) :
  let st' := exec (onCheckedChange item true) st in
  selected st' = selected st ++ [Monitor.id item] /\
  isChecked item st' = true /\
  (forall other, Monitor.id other <> Monitor.id item ->
                 isChecked other st' = isChecked other st).
Proof.
  cbn zeta. unfold exec. rewrite onCheckedChange_run. cbn [snd].
  unfold isChecked, selected. cbn [values Schema.with_monitors Schema.monitors nullish].
  split; [reflexivity | split].
  - apply bool_decide_eq_true. apply elem_of_app. right.
    now apply list_elem_of_singleton.
  - intros other Hne.
    destruct (Schema.monitors (values st)) as [l|]; cbn [nullish].
    + apply bool_decide_ext. rewrite elem_of_app, list_elem_of_singleton. tauto.
    + apply bool_decide_eq_false.
      rewrite elem_of_app, list_elem_of_singleton, elem_of_nil. tauto.
Qed.

(** X5. Clearing the checkbox of a monitor removes every occurrence of its
    id from the selection and keeps the other ids in their order; the
    checkbox then renders as unchecked, the checkboxes of monitors with
    another id render as before, and a [monitors] field that was [undefined]
    stays [undefined]. *)
Theorem unchecking_deselects (item : Monitor.t) (st : State) :
  let st' := exec (onCheckedChange item false) st in
  selected st' = filter (fun v => v ≠ Monitor.id item) (selected st) /\
  isChecked item st' = false /\
  (forall other, Monitor.id other <> Monitor.id item ->
                 isChecked other st' = isChecked other st) /\
  (Schema.monitors (values st) = None -> Schema.monitors (values st') = None).
Proof.
  cbn zeta. unfold exec. rewrite onCheckedChange_run. cbn [snd].
  unfold isChecked, selected. cbn [values Schema.with_monitors Schema.monitors].
  destruct (Schema.monitors (values st)) as [l|]; cbn [fmap option_fmap option_map nullish].
  - split; [reflexivity | split; [|split]].
    + apply bool_decide_eq_false. rewrite list_elem_of_filter. tauto.
    + intros other Hne. apply bool_decide_ext. rewrite list_elem_of_filter. tauto.
    + discriminate.
  - repeat split; reflexivity.
Qed.

Lemma filter_absent (x : Z) (l : list Z) :
  x ∉ l -> filter (fun v => v ≠ x) l = l.
Proof.
  induction l as [|y l IH]; intros Hx; [reflexivity|].
  apply not_elem_of_cons in Hx as [Hne Hx].
  rewrite filter_cons_True by congruence. now rewrite IH.
Qed.

(** X6. Ticking and then clearing the checkbox of a monitor that did not
    render as checked gives the selection back as it was. *)
Theorem check_then_uncheck (item : Monitor.t) (st : State) :
  isChecked item st = false ->
  selected (exec (onCheckedChange item false) (exec (onCheckedChange item true) st))
  = selected st.
Proof.
  intros Hout. unfold exec. rewrite !onCheckedChange_run. cbn [snd].
  unfold selected at 1. cbn [values Schema.with_monitors Schema.monitors].
  cbn [fmap option_fmap option_map nullish].
  assert (Hnot : Monitor.id item ∉ selected st).
  { unfold isChecked, selected in *.
    destruct (Schema.monitors (values st)) as [l|]; cbn [nullish].
    - now apply bool_decide_eq_false in Hout.
    - apply not_elem_of_nil. }
  rewrite filter_app, (filter_absent _ _ Hnot).
  rewrite filter_cons_False by (intros H; now apply H).
  rewrite filter_nil. apply app_nil_r.
Qed.

End Checkboxes.

Lemma check_then_uncheck_witness :
  let web := Monitor.mk 9 "web" "https://w" in
  selected (exec (onCheckedChange web false)
                 (exec (onCheckedChange web true)
                       (mount Sample.env Sample.editing))) = [1; 2].
Proof.
  intros web.
  apply (check_then_uncheck web (mount Sample.env Sample.editing)).
  reflexivity.
Defined.

(** ** The submit event in every case *)

Section SubmitEvent.

Variable env : Env.
Variable props : Props.t.

Lemma form_onSubmit_run (st : State) :
  form_onSubmit env props st =
  let ds := debouncedSlug st in
  let asked := [PreventDefault; GetSlugUniqueness ds] in
  match getSlugUniqueness env ds with
  | Rejected =>
      (Rejected,
       mkState (values st) (errors st) ds (isPending st) (log st ++ asked))
  | Resolved b =>
      if b || sameAsOriginal env props ds then
        let r := resolver env (values st) in
        if decide (Resolution.errors r = ∅) then
          (Resolved tt,
           mkState (values st) (Resolution.errors r) ds false
                   (log st ++ asked ++ submitTrace env props (Resolution.values r)))
        else
          (Resolved tt,
           mkState (values st) (Resolution.errors r) ds (isPending st)
                   (log st ++ asked))
      else
        (Resolved tt,
         mkState (values st) (errors st) ds (isPending st)
                 (log st ++ asked ++ [Toast "unique-slug"]))
  end.
Proof.
  cbn zeta. unfold form_onSubmit, bind at 1. cbn [emit].
  unfold bind at 1. rewrite checkUniqueSlug_run.
  cbn [debouncedSlug values errors isPending log].
  destruct (getSlugUniqueness env (debouncedSlug st)) as [b|].
  - destruct (b || sameAsOriginal env props (debouncedSlug st)); cbn [negb].
    + unfold void, form_handleSubmit. unfold_monad.
      cbn [values errors log debouncedSlug isPending].
      destruct (decide (Resolution.errors (resolver env (values st)) = ∅)).
      * rewrite onSubmit_run. cbn. rewrite <- !app_assoc. reflexivity.
      * cbn. rewrite <- !app_assoc. reflexivity.
    + unfold toast, emit. cbn [values errors debouncedSlug isPending log].
      rewrite <- !app_assoc. reflexivity.
  - rewrite <- !app_assoc. reflexivity.
Qed.

Lemma form_onSubmit_log (st : State) :
  exists sent,
    log (exec (form_onSubmit env props) st) = log st ++ sent /\
    emitted (form_onSubmit env props) st = sent /\
    queries sent = [debouncedSlug st] /\
    (mutations sent <= 1)%nat.
Proof.
  assert (Hq : forall data, queries (submitTrace env props data) = [] /\
                            mutations (submitTrace env props data) = 1%nat).
  { intros data. pose proof (submitTrace_calls env props data) as Hc.
    unfold mutations. unfold submitTrace in *.
    destruct (Props.defaultValues props) as [d|].
    - destruct Hc as [-> ->]. split; [|reflexivity].
      destruct (updatePage env data) as [[]|]; [|reflexivity].
      unfold afterSuccess. destruct (Props.nextUrl props) as [u|];
        [destruct (truthy u)|]; reflexivity.
    - destruct Hc as [-> ->]. split; [|reflexivity].
      destruct (createPage env _) as [page|]; [|reflexivity].
      unfold afterSuccess. destruct (Props.nextUrl props) as [u|];
        [destruct (truthy u)|]; reflexivity. }
  unfold emitted, exec. rewrite form_onSubmit_run. cbn zeta.
  destruct (getSlugUniqueness env (debouncedSlug st)) as [b|].
  - destruct (b || sameAsOriginal env props (debouncedSlug st)).
    + destruct (decide (Resolution.errors (resolver env (values st)) = ∅)).
      * eexists. split; [reflexivity|]. cbn [snd log].
        rewrite drop_app_length. split; [reflexivity|].
        destruct (Hq (Resolution.values (resolver env (values st)))) as [Hq1 Hq2].
        unfold mutations, queries, createCalls, updateCalls in *.
        cbn [app omap list_omap]. rewrite Hq1. split; [reflexivity|].
        rewrite Hq2. lia.
      * eexists. split; [reflexivity|]. cbn [snd log].
        rewrite drop_app_length. repeat split. cbn. lia.
    + eexists. split; [reflexivity|]. cbn [snd log].
      rewrite drop_app_length. repeat split. cbn. lia.
  - eexists. split; [reflexivity|]. cbn [snd log].
    rewrite drop_app_length. repeat split. cbn. lia.
Qed.

(** X7. Whatever happens during a submit event (a failing query, a refused
    slug, an invalid draft, a mutation that goes through or throws), the
    field values and the debounced slug are the same afterwards. *)
Theorem submit_keeps_draft (st : State) :
  values (exec (form_onSubmit env props) st) = values st /\
  debouncedSlug (exec (form_onSubmit env props) st) = debouncedSlug st.
Proof.
  unfold exec. rewrite form_onSubmit_run. cbn zeta.
  destruct (getSlugUniqueness env (debouncedSlug st)) as [b|]; [|now split].
  destruct (b || sameAsOriginal env props (debouncedSlug st)); [|now split].
  destruct (decide (Resolution.errors (resolver env (values st)) = ∅)); now split.
Qed.

(** X8. A submit event asks the backend about the debounced slug exactly
    once and calls at most one mutation, in every state. *)
Theorem submit_one_query_one_mutation (st : State) :
  queries (emitted (form_onSubmit env props) st) = [debouncedSlug st] /\
  (mutations (emitted (form_onSubmit env props) st) <= 1)%nat.
Proof.
  destruct (form_onSubmit_log st) as (sent & _ & -> & Hq & Hm). now split.
Qed.

(** X9. When the uniqueness query itself fails at submit time, the handler
    fails with it: nothing is caught, no toast is shown, no mutation is
    called, and values and errors of the form are left as they were. *)
Theorem submit_query_failure (st : State) :
  getSlugUniqueness env (debouncedSlug st) = Rejected ->
  let st' := exec (form_onSubmit env props) st in
  let sent := emitted (form_onSubmit env props) st in
  outcome (form_onSubmit env props) st = Rejected /\
  sent = [PreventDefault; GetSlugUniqueness (debouncedSlug st)] /\
  values st' = values st /\
  errors st' = errors st.
Proof.
  intros Hrej st' sent. subst st' sent.
  unfold emitted, exec, outcome. rewrite form_onSubmit_run. cbn zeta.
  rewrite Hrej. cbn [fst snd log values errors]. rewrite drop_app_length. now repeat split.
Qed.

(** X10. When the slug passes but the resolver reports a field error, the
    submission stops before [onSubmit]: no mutation, no toast and no router
    call; the errors of the form become the errors of the resolver, and the
    values stay. *)
Theorem invalid_draft_is_not_sent (st : State) :
  outcome (checkUniqueSlug env props) st = Resolved true ->
  Resolution.errors (resolver env (values st)) <> ∅ ->
  let st' := exec (form_onSubmit env props) st in
  let sent := emitted (form_onSubmit env props) st in
  sent = [PreventDefault; GetSlugUniqueness (debouncedSlug st)] /\
  errors st' = Resolution.errors (resolver env (values st)) /\
  values st' = values st.
Proof.
  intros Hu Hv st' sent. subst st' sent.
  unfold outcome in Hu. rewrite checkUniqueSlug_run in Hu. cbn [fst] in Hu.
  unfold emitted, exec. rewrite form_onSubmit_run. cbn zeta.
  destruct (getSlugUniqueness env (debouncedSlug st)) as [b|]; [|discriminate].
  injection Hu as ->.
  destruct (decide (Resolution.errors (resolver env (values st)) = ∅));
    [contradiction|].
  cbn [snd log values errors]. rewrite drop_app_length. now repeat split.
Qed.

End SubmitEvent.

Lemma submit_query_failure_witness :
  let st := run offline Sample.creating [SlugInput "status"; DebounceSettled]
                (mount offline Sample.creating) in
  outcome (form_onSubmit offline Sample.creating) st = Rejected /\
  emitted (form_onSubmit offline Sample.creating) st
  = [PreventDefault; GetSlugUniqueness "status"].
Proof.
  intros st.
  pose proof (submit_query_failure offline Sample.creating st eq_refl)
    as (H1 & H2 & _).
  split; [exact H1 | exact H2].
Defined.

Lemma invalid_draft_is_not_sent_witness :
  let st := run Sample.env Sample.creating [SlugInput "ab"; DebounceSettled]
                (mount Sample.env Sample.creating) in
  emitted (form_onSubmit Sample.env Sample.creating) st
  = [PreventDefault; GetSlugUniqueness "ab"] /\
  errors (exec (form_onSubmit Sample.env Sample.creating) st) !! "slug"
  = Some "String must contain at least 3 character(s)".
Proof.
  intros st.
  assert (Hv : Resolution.errors (resolver Sample.env (values st)) <> ∅).
  { vm_compute. discriminate. }
  pose proof (invalid_draft_is_not_sent Sample.env Sample.creating st eq_refl Hv)
    as (H1 & H2 & _).
  split; [exact H1 | rewrite H2; reflexivity].
Defined.

(** ** [onSubmit] beyond the mutation *)

Section AfterMutation.

Variable env : Env.
Variable props : Props.t.

Lemma afterSuccess_reads :
  toasts (afterSuccess props) = ["saved"] /\
  refreshes (afterSuccess props) = 1%nat /\
  pushes (afterSuccess props)
  = match Props.nextUrl props with
    | Some u => if String.eqb u "" then [] else [u]
    | None => []
    end /\
  last (afterSuccess props) = Some RouterRefresh.
Proof.
  unfold afterSuccess, truthy.
  destruct (Props.nextUrl props) as [u|]; [destruct (String.eqb u "")|];
    repeat split; reflexivity.
Qed.

(** X11. [onSubmit] never throws and always shows exactly one toast:
    "error" when the mutation threw and "saved" otherwise.  When it is done
    the pending flag is down, and values, errors and debounced slug of the
    form are untouched. *)
Theorem onSubmit_settles_with_one_toast (data : Schema.t) (st : State) :
  let st' := exec (onSubmit env props data) st in
  let sent := emitted (onSubmit env props data) st in
  outcome (onSubmit env props data) st = Resolved tt /\
  isPending st' = false /\
  values st' = values st /\
  errors st' = errors st /\
  debouncedSlug st' = debouncedSlug st /\
  (mutationRejected env props data -> toasts sent = ["error"]) /\
  (~ mutationRejected env props data -> toasts sent = ["saved"]).
Proof.
  cbn zeta. rewrite onSubmit_emitted. unfold exec, outcome. rewrite onSubmit_run.
  cbn [fst snd isPending values errors debouncedSlug].
  do 5 (split; [reflexivity|]).
  destruct afterSuccess_reads as (Ht & _).
  unfold mutationRejected, submitTrace.
  remember (afterSuccess props) as tail eqn:E. clear E. unfold toasts in *.
  destruct (Props.defaultValues props) as [d|].
  - destruct (updatePage env data) as [[]|]; split; intros H; cbn;
      try reflexivity; try discriminate; try (now elim H); now rewrite Ht.
  - destruct (createPage env _) as [page|]; split; intros H; cbn;
      try reflexivity; try discriminate; try (now elim H); now rewrite Ht.
Qed.

(** X12. After a mutation that went through, [onSubmit] navigates with
    [router.push] exactly when [nextUrl] is a non-empty string, refreshes
    exactly once, and the refresh is the last thing it does. *)
Theorem success_navigates_and_refreshes (data : Schema.t) (st : State) :
  ~ mutationRejected env props data ->
  let sent := emitted (onSubmit env props data) st in
  pushes sent
  = match Props.nextUrl props with
    | Some u => if String.eqb u "" then [] else [u]
    | None => []
    end /\
  refreshes sent = 1%nat /\
  last sent = Some RouterRefresh.
Proof.
  intros Hok. cbn zeta. rewrite onSubmit_emitted.
  destruct afterSuccess_reads as (_ & Hr & Hp & Hl).
  assert (Hne : afterSuccess props <> []).
  { intros E. rewrite E in Hl. discriminate Hl. }
  unfold mutationRejected, submitTrace in *.
  remember (afterSuccess props) as tail eqn:E. clear E.
  unfold pushes, refreshes in *.
  destruct (Props.defaultValues props) as [d|].
  - destruct (updatePage env data) as [[]|]; [|now elim Hok].
    cbn [omap list_omap]. rewrite Hp, Hr. repeat split.
    destruct tail; [contradiction | exact Hl].
  - destruct (createPage env _) as [page|]; [|now elim Hok].
    cbn [omap list_omap]. rewrite Hp, Hr. repeat split.
    destruct tail; [contradiction | exact Hl].
Qed.

(** X13. [checkUniqueSlug] leaves the form alone and adds exactly one query,
    about the debounced slug, to the log.  A slug that the backend calls
    unique passes; without [defaultValues] the answer of the backend is the
    result; and a failing query makes the check fail with it. *)
Theorem checkUniqueSlug_follows_backend (st : State) :
  let st' := exec (checkUniqueSlug env props) st in
  values st' = values st /\
  errors st' = errors st /\
  emitted (checkUniqueSlug env props) st = [GetSlugUniqueness (debouncedSlug st)] /\
  (getSlugUniqueness env (debouncedSlug st) = Resolved true ->
   outcome (checkUniqueSlug env props) st = Resolved true) /\
  (forall b, Props.defaultValues props = None ->
             getSlugUniqueness env (debouncedSlug st) = Resolved b ->
             outcome (checkUniqueSlug env props) st = Resolved b) /\
  (getSlugUniqueness env (debouncedSlug st) = Rejected ->
   outcome (checkUniqueSlug env props) st = Rejected).
Proof.
  cbn zeta. unfold emitted, exec, outcome. rewrite checkUniqueSlug_run.
  cbn [fst snd values errors log]. rewrite drop_app_length.
  do 3 (split; [reflexivity|]). split; [|split].
  - intros ->. reflexivity.
  - intros b Hd ->. unfold sameAsOriginal. rewrite Hd. now rewrite orb_false_r.
  - intros ->. reflexivity.
Qed.

(** X14. When the query of the effect on the debounced slug fails, the
    rejection is dropped: the effect itself does not fail, and the errors of
    the form, a slug error included, stay as they were. *)
Theorem failed_check_keeps_errors (st : State) :
  getSlugUniqueness env (debouncedSlug st) = Rejected ->
  outcome (slugEffect env props) st = Resolved tt /\
  errors (exec (slugEffect env props) st) = errors st /\
  values (exec (slugEffect env props) st) = values st.
Proof.
  intros Hrej. unfold outcome, exec. rewrite slugEffect_run, Hrej.
  now repeat split.
Qed.

End AfterMutation.

Lemma onSubmit_settles_with_one_toast_witness :
  let st := mount Sample.env Sample.creating in
  toasts (emitted (onSubmit Sample.failing Sample.creating Sample.acme) st)
  = ["error"] /\
  toasts (emitted (onSubmit Sample.env Sample.creating Sample.acme) st)
  = ["saved"].
Proof.
  intros st. split.
  - apply (proj1 (proj2 (proj2 (proj2 (proj2 (proj2
             (onSubmit_settles_with_one_toast Sample.failing Sample.creating
                Sample.acme st))))))).
    reflexivity.
  - apply (proj2 (proj2 (proj2 (proj2 (proj2 (proj2
             (onSubmit_settles_with_one_toast Sample.env Sample.creating
                Sample.acme st))))))).
    discriminate.
Defined.

Lemma success_navigates_and_refreshes_witness :
  pushes (emitted (onSubmit Sample.env Sample.editing Sample.acme)
                  (mount Sample.env Sample.editing))
  = ["/app/my-team/status-pages"] /\
  pushes (emitted (onSubmit Sample.env (Props.mk None "my-team" None None (Some ""))
                            Sample.acme)
                  (mount Sample.env Sample.creating)) = [].
Proof.
  split.
  - apply (success_navigates_and_refreshes Sample.env Sample.editing Sample.acme
             (mount Sample.env Sample.editing)).
    discriminate.
  - apply (success_navigates_and_refreshes Sample.env
             (Props.mk None "my-team" None None (Some "")) Sample.acme
             (mount Sample.env Sample.creating)).
    discriminate.
Defined.

Lemma checkUniqueSlug_follows_backend_witness :
  let st := run Sample.env Sample.creating [SlugInput "acme"; DebounceSettled]
                (mount Sample.env Sample.creating) in
  outcome (checkUniqueSlug Sample.env Sample.creating) st = Resolved false.
Proof.
  intros st.
  apply (proj1 (proj2 (proj2 (proj2 (proj2
           (checkUniqueSlug_follows_backend Sample.env Sample.creating st)))))
           false eq_refl eq_refl).
Defined.

Lemma failed_check_keeps_errors_witness :
  let st := mkState (Schema.with_slug "acme" (initialValues Sample.creating))
                    {[ "slug" := slugTakenMessage ]} "acme" false [] in
  errors (exec (slugEffect offline Sample.creating) st) !! "slug"
  = Some slugTakenMessage.
Proof.
  intros st.
  rewrite (proj1 (proj2 (failed_check_keeps_errors offline Sample.creating st
                           eq_refl))).
  reflexivity.
Defined.

(** ** The favicon beyond the successful upload *)

Section IconEdges.

Variable env : Env.

(** X15. When the upload fails, [handleChange] fails with it: the request
    for the first file of the selection is the last thing that happened, no
    toast tells the user, and the icon field and every other value and error
    of the form are as before. *)
Theorem upload_failure_keeps_icon (f : File.t) (rest : list File.t) (st : State) :
  upload env ("/api/upload?filename=" +:+ File.name f) f = Rejected ->
  let st' := exec (handleChange env (Some (f :: rest))) st in
  outcome (handleChange env (Some (f :: rest))) st = Rejected /\
  emitted (handleChange env (Some (f :: rest))) st
  = [ConsoleLogFile f; Fetch ("/api/upload?filename=" +:+ File.name f) f] /\
  values st' = values st /\
  errors st' = errors st.
Proof.
  intros Hup. cbn zeta. unfold emitted, exec, outcome, handleChange.
  unfold_monad. rewrite Hup. cbn [fst snd log values errors].
  rewrite <- app_assoc, drop_app_length. now repeat split.
Qed.

(** X16. The file picker is shown for an empty icon field only; from such a
    state, an upload that succeeds followed by "Remove" gives back exactly
    the values the form had, whichever files came after the first one in the
    selection. *)
Theorem upload_then_remove (f : File.t) (rest : list File.t)
    (blob : PutBlobResult.t) (st : State) :
  renderIcon st = FilePicker ->
  upload env ("/api/upload?filename=" +:+ File.name f) f = Resolved blob ->
  values (exec removeIcon (exec (handleChange env (Some (f :: rest))) st))
  = values st.
Proof.
  intros Hpick Hup. unfold exec at 2.
  rewrite (handleChange_run env f rest blob st Hup).
  assert (Hicon : Schema.icon (values st) = "").
  { unfold renderIcon in Hpick.
    destruct (truthy (Schema.icon (values st))) eqn:E; [discriminate|].
    now apply truthy_false. }
  cbn. rewrite <- Hicon. now destruct (values st).
Qed.

End IconEdges.

Lemma upload_failure_keeps_icon_witness :
  let st := mount offline Sample.creating in
  outcome (handleChange offline (Some [Sample.favicon])) st = Rejected /\
  values (exec (handleChange offline (Some [Sample.favicon])) st) = values st.
Proof.
  intros st.
  pose proof (upload_failure_keeps_icon offline Sample.favicon [] st eq_refl)
    as (H1 & _ & H2 & _).
  split; [exact H1 | exact H2].
Defined.

Lemma upload_then_remove_witness :
  let st := mount Sample.env Sample.creating in
  values (exec removeIcon
               (exec (handleChange Sample.env (Some [Sample.favicon; Sample.favicon]))
                     st))
  = values st.
Proof.
  intros st.
  apply (upload_then_remove Sample.env Sample.favicon [Sample.favicon]
           (PutBlobResult.mk "https://blob.example/favicon.png") st);
    reflexivity.
Defined.

(** ** Invariants of a whole session *)

Section Sessions.

Variable env : Env.
Variable props : Props.t.

Lemma session_cons (i : Interaction) (acts : list Interaction) (st : State) :
  session env props (i :: acts) st = session env props acts (interact env props st i).
Proof. reflexivity. Qed.

Lemma form_onSubmit_values (st : State) :
  values (snd (form_onSubmit env props st)) = values st.
Proof.
  rewrite form_onSubmit_run. cbn zeta.
  destruct (getSlugUniqueness env (debouncedSlug st)) as [b|]; [|reflexivity].
  destruct (b || sameAsOriginal env props (debouncedSlug st)); [|reflexivity].
  destruct (decide (Resolution.errors (resolver env (values st)) = ∅)); reflexivity.
Qed.

Lemma interact_values (i : Interaction) (st : State) :
  values (interact env props st i) =
  let v := values st in
  match i with
  | Core (TitleInput t) =>
      if String.eqb t (Schema.title v) then Schema.with_title t v
      else if noDefaultTitle props
           then Schema.with_slug (slugify env t) (Schema.with_title t v)
           else Schema.with_title t v
  | Core (SlugInput s) => Schema.with_slug s v
  | Core DebounceSettled | Core Submit => v
  | Core (FilesSelected (Some (f :: _))) =>
      match upload env ("/api/upload?filename=" +:+ File.name f) f with
      | Resolved blob => Schema.with_icon (PutBlobResult.url blob) v
      | Rejected => v
      end
  | Core (FilesSelected _) => v
  | Core (RemoveClicked _) => Schema.with_icon "" v
  | Core (MonitorToggled item checked) =>
      Schema.with_monitors
        (if checked
         then Some (selected st ++ [Monitor.id item])
         else filter (fun x => x ≠ Monitor.id item) <$> Schema.monitors v)
        v
  | DescriptionInput s => with_description s v
  end.
Proof.
  cbn zeta. destruct i as [[t|s| | |file|sub|item checked]|s];
    unfold interact, step, exec; cbn [handle].
  - unfold onTitleInput, titleEffect, form_setValue_slug, watchTitle. unfold_monad.
    cbn [values]. destruct (String.eqb t (Schema.title (values st)));
      [reflexivity | destruct (noDefaultTitle props); reflexivity].
  - reflexivity.
  - unfold onDebounceSettled, bind. cbn [get].
    destruct (String.eqb (watchSlug st) (debouncedSlug st)); [reflexivity|].
    cbn [setDebouncedSlug]. now rewrite slugEffect_run.
  - apply form_onSubmit_values.
  - destruct file as [[|f rest]|]; try reflexivity.
    unfold void, handleChange, form_setValue_icon. unfold_monad.
    destruct (upload env _ f); reflexivity.
  - unfold bind, removeIcon, form_setValue_icon, setValues.
    destruct sub; [|reflexivity]. now rewrite form_onSubmit_values.
  - reflexivity.
  - reflexivity.
Qed.

Lemma mutations_app (l k : list Effect) :
  mutations (l ++ k) = (mutations l + mutations k)%nat.
Proof.
  unfold mutations, createCalls, updateCalls.
  rewrite !omap_app, !length_app. lia.
Qed.

Lemma submitTrace_mutations (data : Schema.t) :
  mutations (submitTrace env props data) = 1%nat.
Proof.
  pose proof (submitTrace_calls env props data) as Hc. unfold mutations.
  destruct (Props.defaultValues props); destruct Hc as [-> ->]; reflexivity.
Qed.

Lemma interact_log (i : Interaction) (st : State) :
  exists sent,
    log (interact env props st i) = log st ++ sent /\
    (isSubmit i = false -> List.filter outward sent = []) /\
    (mutations sent <= if isSubmit i then 1 else 0)%nat.
Proof.
  destruct i as [[t|s| | |file|sub|item checked]|s];
    unfold interact, step, exec; cbn [handle isSubmit].
  - exists []. rewrite app_nil_r. split; [|split; [reflexivity | cbn; lia]].
    unfold onTitleInput, titleEffect, form_setValue_slug. unfold_monad.
    cbn [values]. destruct (String.eqb t (watchTitle st));
      [reflexivity | destruct (noDefaultTitle props); reflexivity].
  - exists []. rewrite app_nil_r. split; [reflexivity | split; [reflexivity | cbn; lia]].
  - unfold onDebounceSettled, bind. cbn [get].
    destruct (String.eqb (watchSlug st) (debouncedSlug st)).
    + exists []. rewrite app_nil_r.
      split; [reflexivity | split; [reflexivity | cbn; lia]].
    + cbn [setDebouncedSlug]. rewrite slugEffect_run. eexists.
      split; [reflexivity | split; [reflexivity | cbn; lia]].
  - rewrite form_onSubmit_run. cbn zeta.
    destruct (getSlugUniqueness env (debouncedSlug st)) as [b|].
    + destruct (b || sameAsOriginal env props (debouncedSlug st)).
      * destruct (decide (Resolution.errors (resolver env (values st)) = ∅)).
        -- eexists. split; [reflexivity | split; [discriminate|]].
           rewrite mutations_app, submitTrace_mutations. cbn. lia.
        -- eexists. split; [reflexivity | split; [discriminate | cbn; lia]].
      * eexists. split; [reflexivity | split; [discriminate | cbn; lia]].
    + eexists. split; [reflexivity | split; [discriminate | cbn; lia]].
  - destruct file as [[|f rest]|].
    + exists []. rewrite app_nil_r.
      split; [reflexivity | split; [reflexivity | cbn; lia]].
    + unfold void, handleChange, form_setValue_icon. unfold_monad.
      destruct (upload env _ f); cbn [snd log]; rewrite <- !app_assoc;
        eexists; (split; [reflexivity | split; [reflexivity | cbn; lia]]).
    + exists []. rewrite app_nil_r.
      split; [reflexivity | split; [reflexivity | cbn; lia]].
  - unfold bind, removeIcon, form_setValue_icon, setValues. destruct sub.
    + match goal with
      | |- context [form_onSubmit env props ?s] =>
          destruct (form_onSubmit_log env props s) as (sent & Hlog & _ & _ & Hm)
      end.
      exists sent. split; [exact Hlog | split; [discriminate | exact Hm]].
    + exists []. rewrite app_nil_r.
      split; [reflexivity | split; [reflexivity | cbn; lia]].
  - exists []. rewrite app_nil_r. split; [reflexivity | split; [reflexivity | cbn; lia]].
  - exists []. rewrite app_nil_r. split; [reflexivity | split; [reflexivity | cbn; lia]].
Qed.

(** X17. Without a submission of the form nothing is saved or announced.
    In a session with no submit event and no click on "Remove" whose default
    action submitted the form, whatever the user types, toggles or uploads,
    and whenever the debounce settles, the log gains no mutation call, no
    toast and no router call. *)
Theorem only_submit_reaches_out (acts : list Interaction) (st : State) :
  forallb (fun i => negb (isSubmit i)) acts = true ->
  List.filter outward (log (session env props acts st))
  = List.filter outward (log st).
Proof.
  revert st. induction acts as [|i acts IH]; intros st Hno; [reflexivity|].
  cbn [forallb] in Hno. apply andb_true_iff in Hno as [Hi Hno].
  apply negb_true_iff in Hi.
  rewrite session_cons, (IH _ Hno).
  destruct (interact_log i st) as (sent & -> & Hquiet & _).
  rewrite List.filter_app, (Hquiet Hi). apply app_nil_r.
Qed.

(** X18. A session calls at most one mutation per submission of the form:
    the number of [createPage] and [updatePage] calls in the log grows by no
    more than the number of submit events plus the number of clicks on
    "Remove" whose default action submitted the form. *)
Theorem one_mutation_per_submit (acts : list Interaction) (st : State) :
  (mutations (log (session env props acts st))
   <= mutations (log st) + length (List.filter isSubmit acts))%nat.
Proof.
  revert st. induction acts as [|i acts IH]; intros st; [cbn; lia|].
  rewrite session_cons. specialize (IH (interact env props st i)).
  destruct (interact_log i st) as (sent & Hlog & _ & Hm).
  rewrite Hlog, mutations_app in IH. cbn [List.filter].
  destruct (isSubmit i); cbn [length]; lia.
Qed.

(** X19. With a non-empty title in [defaultValues], the slug field changes
    through the slug input only: a session without a slug input, whatever
    else it contains, ends with the slug it started with. *)
Theorem slug_changes_by_slug_input_only (d : Schema.t) (acts : list Interaction)
    (st : State) :
  Props.defaultValues props = Some d ->
  Schema.title d <> "" ->
  forallb (fun i => negb (isSlugInput i)) acts = true ->
  watchSlug (session env props acts st) = watchSlug st.
Proof.
  intros Hd Ht.
  assert (Hidle : noDefaultTitle props = false).
  { apply noDefaultTitle_false. now exists d. }
  revert st. induction acts as [|i acts IH]; intros st Hno; [reflexivity|].
  cbn [forallb] in Hno. apply andb_true_iff in Hno as [Hi Hno].
  apply negb_true_iff in Hi.
  rewrite session_cons, (IH _ Hno). unfold watchSlug.
  rewrite interact_values. cbn zeta. rewrite Hidle.
  destruct i as [[t|s| | |[[|f rest]|]|sub|item checked]|s]; try reflexivity.
  - now destruct (String.eqb t (Schema.title (values st))).
  - discriminate Hi.
  - now destruct (upload env _ f).
Qed.

(** X20. No interaction touches the id, the workspace id, the custom domain
    or the [workspaceSlug] field of the draft: at the end of every session
    they are what they were at its start. *)
Theorem identity_fields_are_fixed (acts : list Interaction) (st : State) :
  let v := values st in
  let v' := values (session env props acts st) in
  Schema.id v' = Schema.id v /\
  Schema.workspaceId v' = Schema.workspaceId v /\
  Schema.customDomain v' = Schema.customDomain v /\
  Schema.workspaceSlug v' = Schema.workspaceSlug v.
Proof.
  cbn zeta. revert st. induction acts as [|i acts IH]; intros st; [now repeat split|].
  rewrite session_cons.
  destruct (IH (interact env props st i)) as (-> & -> & -> & ->).
  rewrite interact_values. cbn zeta.
  destruct i as [[t|s| | |[[|f rest]|]|sub|item checked]|s]; try (now repeat split).
  - destruct (String.eqb t (Schema.title (values st)));
      [|destruct (noDefaultTitle props)]; now repeat split.
  - destruct (upload env _ f); now repeat split.
Qed.

(** X21. The selection never leaves the monitors on offer: when the ids
    selected at the start and the ids of the monitors toggled during a
    session all belong to a list, every id selected at the end belongs to
    it. *)
Theorem selection_stays_listed (ids : list Z) (acts : list Interaction)
    (st : State) :
  selected st ⊆ ids ->
  toggledIds acts ⊆ ids ->
  selected (session env props acts st) ⊆ ids.
Proof.
  revert st. induction acts as [|i acts IH]; intros st Hsel Htog; [exact Hsel|].
  rewrite session_cons. apply IH.
  - unfold selected at 1. rewrite interact_values. cbn zeta.
    destruct i as [[t|s| | |[[|f rest]|]|sub|item checked]|s]; try exact Hsel.
    + destruct (String.eqb t (Schema.title (values st)));
        [|destruct (noDefaultTitle props)]; exact Hsel.
    + destruct (upload env _ f); exact Hsel.
    + cbn [Schema.with_monitors Schema.monitors]. destruct checked.
      * cbn [nullish]. intros x Hx. apply elem_of_app in Hx as [Hx|Hx].
        -- now apply Hsel.
        -- apply list_elem_of_singleton in Hx as ->. apply Htog.
           cbn. apply list_elem_of_here.
      * unfold selected in Hsel.
        destruct (Schema.monitors (values st)) as [l|]; cbn in *.
        -- intros x Hx. apply list_elem_of_filter in Hx as [_ Hx]. now apply Hsel.
        -- exact Hsel.
  - intros x Hx. apply Htog.
    destruct i as [[t|s| | |file|sub|item checked]|s]; cbn; try exact Hx.
    now apply list_elem_of_further.
Qed.

End Sessions.

Lemma checking_selects_witness :
  let api := Monitor.mk 5 "api" "https://a" in
  let web := Monitor.mk 9 "web" "https://w" in
  let st := mount Sample.env Sample.editing in
  isChecked web (exec (onCheckedChange api true) st) = isChecked web st.
Proof.
  intros api web st.
  apply (proj2 (proj2 (checking_selects api st)) web). discriminate.
Defined.

Lemma unchecking_deselects_witness :
  let one := Monitor.mk 1 "api" "https://a" in
  let two := Monitor.mk 2 "web" "https://w" in
  let st := mount Sample.env Sample.editing in
  isChecked two (exec (onCheckedChange one false) st) = isChecked two st.
Proof.
  intros one two st.
  apply (proj1 (proj2 (proj2 (unchecking_deselects one st))) two). discriminate.
Defined.

Lemma only_submit_reaches_out_witness :
  List.filter outward
    (log (session Sample.env Sample.creating
            [Core (TitleInput "Acme Status"); DescriptionInput "All systems";
             Core DebounceSettled; Core (FilesSelected (Some [Sample.favicon]));
             Core (RemoveClicked false);
             Core (MonitorToggled (Monitor.mk 5 "api" "https://a") true)]
            (mount Sample.env Sample.creating))) = [].
Proof.
  rewrite only_submit_reaches_out; reflexivity.
Defined.

Lemma slug_changes_by_slug_input_only_witness :
  watchSlug
    (session Sample.env Sample.editing
       [Core (TitleInput "Acme"); DescriptionInput "All systems";
        Core DebounceSettled; Core Submit; Core (RemoveClicked true)]
       (mount Sample.env Sample.editing)) = "acme".
Proof.
  rewrite (slug_changes_by_slug_input_only Sample.env Sample.editing Sample.acme).
  - reflexivity.
  - reflexivity.
  - discriminate.
  - reflexivity.
Defined.

Lemma selection_stays_listed_witness :
  selected
    (session Sample.env Sample.selectingAll
       [Core (MonitorToggled (Monitor.mk 5 "api" "https://a") false);
        Core (TitleInput "Acme"); Core Submit;
        Core (MonitorToggled (Monitor.mk 5 "api" "https://a") true)]
       (mount Sample.env Sample.selectingAll)) ⊆ [5; 9].
Proof.
  apply (selection_stays_listed Sample.env Sample.selectingAll [5; 9]).
  - vm_compute. intros x Hx. exact Hx.
  - vm_compute. intros x Hx.
    apply list_elem_of_In in Hx. apply list_elem_of_In.
    destruct Hx as [<- | [<- | []]]; left; reflexivity.
Defined.

(** A click on "Remove" whose default action takes place is a submission:
    after an upload it empties the icon field and sends the draft. *)
Example remove_click_submits :
  let st := session Sample.env Sample.creating
              [Core (TitleInput "Acme Status"); Core DebounceSettled;
               Core (FilesSelected (Some [Sample.favicon]));
               Core (RemoveClicked true)]
              (mount Sample.env Sample.creating) in
  Schema.icon (values st) = "" /\
  createCalls (log st)
  = [Schema.mk "Acme Status" "acme-status" "" 0 0 (Some []) "" "my-team" ""] /\
  toasts (log st) = ["saved"].
Proof.
  vm_compute. split; [reflexivity | split; reflexivity].
Qed.
